(** * The Tavus conversation relay

    A shallow embedding of the two request handlers of the repository,

    - [Server.do_POST] and [Server.do_OPTIONS]: the [http.server] variant
      of [api/create_tavus_server.py];
    - [Flask.create_conversation]: the Flask variant of
      [api/create_conversation.py];

    together with the facts about the payload they forward to the Tavus
    API and about the response they hand back to the caller.

    The handlers are pure functions of the inbound request. What the
    Python libraries do ([int], [rfile.read], [bytes.decode], [json.loads],
    with the exceptions they raise) and what the upstream answers
    ([requests.post], [Response.json()]) are parameters of the model, so
    a theorem holds whatever these do. Every run records the outbound calls
    it issued and ends either with a response or with an exception that
    the handler does not catch. *)

From Stdlib Require Import ZArith String Ascii Floats.
From stdpp Require Import gmap strings list fin_maps.

Set Warnings "-register-all,-clear-no-such-hyp".

Open Scope Z_scope.

(** ** Python values *)

(** What [json.loads] produces and [json.dumps] consumes. A [dict] keeps no
    order that the handlers depend on, so it is a finite map. *)
Inductive value :=
| PyNone
| PyBool (b : bool)
| PyInt (n : Z)
| PyFloat (x : float)
| PyStr (s : string)
| PyList (l : list value)
| PyDict (d : gmap string value).

Definition bytes := list Byte.byte.

(** ** Exceptions *)

(** [requests.exceptions]: the subclasses of [RequestException]; each
    carries the text that [str(exc)] returns. [JSONDecodeError] is the one
    that [Response.json()] raises on a body that is no JSON. *)
Module requests_exceptions.

Inductive RequestException :=
| ConnectionError (message : string)
| Timeout (message : string)
| JSONDecodeError (message : string)
| OtherRequestException (message : string).

Definition str (exc : RequestException) : string :=
  match exc with
  | ConnectionError m | Timeout m | JSONDecodeError m | OtherRequestException m => m
  end.

End requests_exceptions.

(** The exceptions that can leave a handler. [JSONDecodeError] is the one of
    the [json] module; [RecursionError] is what [json.loads] raises on a
    text nested too deep; [OverflowError] and [MemoryError] are what
    reading too many bytes raises; [OtherException] is any other class, by
    its name, none of them a [ValueError] or a [RequestException]. *)
Inductive exception :=
| ValueError
| UnicodeDecodeError
| TypeError
| AttributeError
| KeyError
| JSONDecodeError
| RecursionError
| OverflowError
| MemoryError
| RequestException (exc : requests_exceptions.RequestException)
| OtherException (name : string).

(** An exception that [except json.JSONDecodeError] catches: the class
    itself and the subclass that [requests] derives from it. *)
Definition is_json_decode_error (e : exception) : bool :=
  match e with
  | JSONDecodeError => true
  | RequestException (requests_exceptions.JSONDecodeError _) => true
  | _ => false
  end.

(** An exception that [except ValueError] catches. *)
Definition is_value_error (e : exception) : bool :=
  match e with
  | ValueError | UnicodeDecodeError | JSONDecodeError => true
  | RequestException (requests_exceptions.JSONDecodeError _) => true
  | _ => false
  end.

(** ** The [requests] library *)

Module requests.

Abbreviation RequestException := requests_exceptions.RequestException.
Abbreviation ConnectionError := requests_exceptions.ConnectionError.
Abbreviation Timeout := requests_exceptions.Timeout.
Abbreviation OtherRequestException := requests_exceptions.OtherRequestException.
Abbreviation str := requests_exceptions.str.

(** The arguments of one [requests.post]. [timeout = None] is the
    library's default: wait without bound. *)
Record Call := {
  url : string;
  headers : gmap string string;
  json : gmap string value;
  timeout : option Z
}.

(** The three observations the handlers make of a response;
    [json_] is what [Response.json()] returns or raises. *)
Record Response := {
  status_code : Z;
  text : string;
  json_ : exception + value
}.

End requests.

(** [s1 in s2] on two [str]: substring test. *)
Fixpoint str_contains (s sub : string) : bool :=
  String.prefix sub s ||
  match s with
  | EmptyString => false
  | String _ rest => str_contains rest sub
  end.

(** [bool(v)]: Python truthiness. *)
Definition truthy (v : value) : bool :=
  match v with
  | PyNone => false
  | PyBool b => b
  | PyInt n => negb (n =? 0)
  | PyFloat x => negb (PrimFloat.eqb x PrimFloat.zero)
  | PyStr s => negb (String.eqb s "")
  | PyList l => match l with [] => false | _ :: _ => true end
  | PyDict d => negb (Nat.eqb (size d) 0)
  end.

(** Truthiness of an optional [str], as returned by [os.environ.get]. *)
Definition truthy_str (o : option string) : bool :=
  match o with
  | Some s => negb (String.eqb s "")
  | None => false
  end.

(** [x == key] for a [str] key. *)
Definition eq_str (x : value) (key : string) : bool :=
  match x with
  | PyStr s => String.eqb s key
  | _ => false
  end.

(** [key in v] for a [str] key; [TypeError] on a value that is no
    container. *)
Definition contains (v : value) (key : string) : exception + bool :=
  match v with
  | PyDict d => inr (bool_decide (is_Some (d !! key)))
  | PyList l => inr (existsb (fun x => eq_str x key) l)
  | PyStr s => inr (str_contains s key)
  | _ => inl TypeError
  end.

(** [v[key]] for a [str] key. *)
Definition getitem (v : value) (key : string) : exception + value :=
  match v with
  | PyDict d => match d !! key with Some x => inr x | None => inl KeyError end
  | _ => inl TypeError
  end.

(** [v.get(key)]: only a [dict] has the method. *)
Definition get (v : value) (key : string) : exception + value :=
  match v with
  | PyDict d => inr (default PyNone (d !! key))
  | _ => inl AttributeError
  end.

(** ** Responses to the caller *)

(** The entity a handler writes. *)
Inductive content :=
| json_dumps (v : value)                  (* json.dumps(v).encode('utf-8') *)
| raw (s : string)                        (* a str handed over as it is *)
| error_page (code : Z) (message : string) (* the HTML page of send_error *)
| no_content.

Record response := {
  status : Z;
  sent_headers : list (string * string);
  body : content
}.

(** How a run of a handler ends. *)
Inductive outcome :=
| Responds (r : response)
| Raises (e : exception).

(** A run: the outbound calls issued, in order, and the outcome. *)
Record run := {
  calls : list requests.Call;
  result : outcome
}.

Definition status_of (o : outcome) : option Z :=
  match o with
  | Responds r => Some (status r)
  | Raises _ => None
  end.

Definition has_header (r : response) (name v : string) : Prop :=
  (name, v) ∈ sent_headers r.

(** The process-wide values read from the environment at start-up. *)
Record secrets := {
  API_KEY : string;
  PERSONA_ID : string;
  REPLICA_ID : option string
}.

(** An optional [str] as a Python value. *)
Definition of_optional (o : option string) : value :=
  match o with
  | Some s => PyStr s
  | None => PyNone
  end.

(** One round of the merge loop: [if key in extra: payload[key] = extra[key]]. *)
Definition merge_key (extra : value) (key : string)
    (acc : exception + gmap string value) : exception + gmap string value :=
  match acc with
  | inl e => inl e
  | inr payload =>
      match contains extra key with
      | inl e => inl e
      | inr false => inr payload
      | inr true =>
          match getitem extra key with
          | inl e => inl e
          | inr x => inr (<[ key := x ]> payload)
          end
      end
  end.

(** ** The [http.server] variant: [api/create_tavus_server.py] *)

Module Server.

(** What [do_POST] reads of the handler object: [self.path],
    [self.headers] and the bytes waiting in [self.rfile]. *)
Record request := {
  path : string;
  headers : list (string * string);
  rfile : bytes
}.

Definition lower_char (c : ascii) : ascii :=
  let n := nat_of_ascii c in
  if (Nat.leb 65 n && Nat.leb n 90)%bool then ascii_of_nat (n + 32) else c.

Fixpoint lower (s : string) : string :=
  match s with
  | EmptyString => EmptyString
  | String c rest => String (lower_char c) (lower rest)
  end.

(** [headers.get(name)]: the first field of that name, whatever its
    case. *)
Fixpoint headers_get (hs : list (string * string)) (name : string) : option string :=
  match hs with
  | [] => None
  | (k, v) :: rest =>
      if String.eqb (lower k) (lower name) then Some v else headers_get rest name
  end.

(** [BaseHTTPRequestHandler.send_error]: status line, its own headers and
    an HTML page (the [Server], [Date] and [Content-Length] fields that
    [http.server] adds to every response are left out throughout). *)
Definition send_error (code : Z) (message : string) : response :=
  {| status := code;
     sent_headers := [("Connection", "close"); ("Content-Type", "text/html;charset=utf-8")];
     body := error_page code message |}.

(** Module level: the three [os.environ.get] and the exit when a
    required one is missing or empty ([None]: [sys.exit(1)]). *)
Definition startup (environ : gmap string string) : option secrets :=
  let api_key := environ !! "TAVUS_API_KEY" in
  let persona_id := environ !! "PERSONA_ID" in
  let replica_id := environ !! "REPLICA_ID" in
  if (negb (truthy_str api_key) || negb (truthy_str persona_id))%bool then None
  else
    match api_key, persona_id with
    | Some k, Some p => Some {| API_KEY := k; PERSONA_ID := p; REPLICA_ID := replica_id |}
    | _, _ => None
    end.

Definition allowed_keys : gset string :=
  {[ "conversation_name"; "conversational_context"; "callback_url";
     "properties"; "audio_only" ]}.

Section handler.

(** [int] on a [str] ([None]: [ValueError]); what [rfile.read(n)] raises,
    if anything ([OverflowError] for a size that is no C integer,
    [MemoryError] for a buffer that cannot be had);
    [bytes.decode('utf-8')] ([None]: [UnicodeDecodeError]); [json.loads],
    which raises [json.JSONDecodeError] on a text that is no JSON and can
    raise others ([RecursionError], a plain [ValueError]); and the
    upstream behind [requests.post]. *)
Variable int : string -> option Z.
Variable read_raises : Z -> option exception.
Variable decode : bytes -> option string.
Variable loads : string -> exception + value.
Variable post : requests.Call -> requests.RequestException + requests.Response.
Variable cfg : secrets.

(** [int(self.headers.get('Content-Length', 0))] *)
Definition content_length (self : request) : exception + Z :=
  match headers_get (headers self) "Content-Length" with
  | None => inr 0
  | Some s =>
      match int s with
      | Some n => inr n
      | None => inl ValueError
      end
  end.

(** [self.rfile.read(content_length) if content_length > 0 else b''] *)
Definition read_body (self : request) (content_length : Z) : exception + bytes :=
  if 0 <? content_length then
    match read_raises content_length with
    | Some e => inl e
    | None => inr (take (Z.to_nat content_length) (rfile self))
    end
  else inr [].

(** The first part of [do_POST], up to the parsed body: either the
    handler is done already (404, 400 or an exception), or
    [extra_params] is bound. [except json.JSONDecodeError] catches that
    class only: whatever else [json.loads] raises leaves the handler, as
    do the errors of [int], [rfile.read] and [decode]. *)
Definition extra_params (self : request) : outcome + value :=
  if negb (String.eqb (path self) "/create-conversation") then
    inl (Responds (send_error 404 "Not Found"))
  else
    match content_length self with
    | inl e => inl (Raises e)
    | inr n =>
        match read_body self n with
        | inl e => inl (Raises e)
        | inr [] => inr (PyDict ∅)
        | inr body =>
            match decode body with
            | None => inl (Raises UnicodeDecodeError)
            | Some s =>
                match loads s with
                | inl e =>
                    if is_json_decode_error e
                    then inl (Responds (send_error 400 "Invalid JSON in request body"))
                    else inl (Raises e)
                | inr v => inr v
                end
            end
        end
    end.

(** The payload: [persona_id], [replica_id] when truthy, then the merge
    loop over the set [allowed_keys] (in whatever order the set
    yields its elements). *)
Definition build_payload (extra_params : value) : exception + gmap string value :=
  let payload := {[ "persona_id" := PyStr (PERSONA_ID cfg) ]} in
  let payload :=
    if truthy_str (REPLICA_ID cfg)
    then <[ "replica_id" := of_optional (REPLICA_ID cfg) ]> payload
    else payload in
  set_fold (merge_key extra_params) (inr payload) allowed_keys.

Definition call (payload : gmap string value) : requests.Call :=
  {| requests.url := "https://tavusapi.com/v2/conversations";
     requests.headers :=
       {[ "Content-Type" := "application/json"; "x-api-key" := API_KEY cfg ]};
     requests.json := payload;
     requests.timeout := Some 30 |}.

(** The [except requests.RequestException] branch. *)
Definition unreachable (exc : requests.RequestException) : response :=
  {| status := 502;
     sent_headers := [("Content-Type", "application/json")];
     body := json_dumps (PyDict
       {[ "error" := PyStr "Failed to contact Tavus API";
          "details" := PyStr (requests.str exc) ]}) |}.

(** The rest of [do_POST], once [requests.post] has returned. *)
Definition translate (response : requests.Response) : outcome :=
  if negb (requests.status_code response =? 200) then
    Responds
      {| status := requests.status_code response;
         sent_headers := [("Content-Type", "application/json")];
         body := json_dumps (PyDict
           {[ "error" := PyStr "Tavus API error";
              "status_code" := PyInt (requests.status_code response);
              "details" := PyStr (requests.text response) ]}) |}
  else
    match requests.json_ response with
    | inl e => Raises e
    | inr data =>
        match get data "conversation_url" with
        | inl e => Raises e
        | inr conversation_url =>
            match get data "conversation_id" with
            | inl e => Raises e
            | inr conversation_id =>
                if negb (truthy conversation_url) then
                  Responds
                    {| status := 500;
                       sent_headers := [("Content-Type", "application/json")];
                       body := json_dumps (PyDict
                         {[ "error" := PyStr "Invalid response from Tavus API";
                            "details" := data ]}) |}
                else
                  Responds
                    {| status := 200;
                       sent_headers :=
                         [("Access-Control-Allow-Origin", "*");
                          ("Access-Control-Allow-Methods", "POST, OPTIONS");
                          ("Access-Control-Allow-Headers", "Content-Type");
                          ("Content-Type", "application/json")];
                       body := json_dumps (PyDict
                         {[ "conversation_url" := conversation_url;
                            "conversation_id" := conversation_id ]}) |}
            end
        end
    end.

Definition do_POST (self : request) : run :=
  match extra_params self with
  | inl early => {| calls := []; result := early |}
  | inr extra_params =>
      match build_payload extra_params with
      | inl e => {| calls := []; result := Raises e |}
      | inr payload =>
          {| calls := [call payload];
             result :=
               match post (call payload) with
               | inl exc => Responds (unreachable exc)
               | inr response => translate response
               end |}
      end
  end.

Definition do_OPTIONS (self : request) : run :=
  {| calls := [];
     result := Responds
       {| status := 200;
          sent_headers :=
            [("Access-Control-Allow-Origin", "*");
             ("Access-Control-Allow-Methods", "POST, OPTIONS");
             ("Access-Control-Allow-Headers", "Content-Type")];
          body := no_content |} |}.

End handler.

End Server.

(** ** The Flask variant: [api/create_conversation.py] *)

Module Flask.

(** What the view reads of [flask.request]: the body and whether the
    request declares a JSON media type. *)
Record request := {
  data : bytes;
  is_json : bool
}.

(** Module level: [os.environ['...']] raises [KeyError] on a missing
    variable; [REPLICA_ID] is read with [os.environ.get]. *)
Definition startup (environ : gmap string string) : exception + secrets :=
  match environ !! "TAVUS_API_KEY" with
  | None => inl KeyError
  | Some k =>
      match environ !! "PERSONA_ID" with
      | None => inl KeyError
      | Some p =>
          inr {| API_KEY := k; PERSONA_ID := p; REPLICA_ID := environ !! "REPLICA_ID" |}
      end
  end.

Definition allowed_keys : list string :=
  [ "conversation_name"; "conversational_context"; "callback_url";
    "properties"; "audio_only" ]%string.

Section handler.

(** Reading the body and [json.loads] on its bytes, with whatever the two
    raise, and the upstream behind [requests.post]. *)
Variable loads : bytes -> exception + value.
Variable post : requests.Call -> requests.RequestException + requests.Response.
Variable cfg : secrets.

(** [request.get_json(silent=True)]: [None] unless the media type is
    JSON and the body parses. [silent] silences the [ValueError]s of
    [json.loads]; anything else it raises leaves the call. *)
Definition get_json (request : request) : exception + value :=
  if is_json request then
    match loads (data request) with
    | inr v => inr v
    | inl e => if is_value_error e then inr PyNone else inl e
    end
  else inr PyNone.

(** [x or {}] *)
Definition or_empty (x : value) : value :=
  if truthy x then x else PyDict ∅.

Definition build_payload (extra : value) : exception + gmap string value :=
  let payload := {[ "persona_id" := PyStr (PERSONA_ID cfg) ]} in
  let payload :=
    if truthy_str (REPLICA_ID cfg)
    then <[ "replica_id" := of_optional (REPLICA_ID cfg) ]> payload
    else payload in
  foldl (fun acc k => merge_key extra k acc) (inr payload) allowed_keys.

Definition call (payload : gmap string value) : requests.Call :=
  {| requests.url := "https://tavusapi.com/v2/conversations";
     requests.headers :=
       {[ "x-api-key" := API_KEY cfg; "Content-Type" := "application/json" ]};
     requests.json := payload;
     requests.timeout := None |}.

(** The returned triple [(resp.text, resp.status_code, headers)]. *)
Definition relay (resp : requests.Response) : response :=
  {| status := requests.status_code resp;
     sent_headers :=
       [("Content-Type", "application/json");
        ("Access-Control-Allow-Origin", "*");
        ("Access-Control-Allow-Methods", "POST, OPTIONS");
        ("Access-Control-Allow-Headers", "Content-Type")];
     body := raw (requests.text resp) |}.

(** [extra = request.get_json(silent=True) or {}] *)
Definition extra (request : request) : exception + value :=
  match get_json request with
  | inl e => inl e
  | inr x => inr (or_empty x)
  end.

Definition create_conversation (request : request) : run :=
  match extra request with
  | inl e => {| calls := []; result := Raises e |}
  | inr extra =>
      match build_payload extra with
      | inl e => {| calls := []; result := Raises e |}
      | inr payload =>
          {| calls := [call payload];
             result :=
               match post (call payload) with
               | inl exc => Raises (RequestException exc)
               | inr resp => Responds (relay resp)
               end |}
      end
  end.

End handler.

End Flask.

(** ** What the specification says of the payload *)

(** The five names the specification lets through. *)
Definition allow_list : list string :=
  [ "conversation_name"; "conversational_context"; "callback_url";
    "properties"; "audio_only" ]%string.

(** [payload] is exactly: [persona_id] from the secrets, [replica_id] when
    configured, the allow-listed entries of [inbound], and nothing else. *)
Definition forwards (cfg : secrets) (inbound payload : gmap string value) : Prop :=
  payload !! "persona_id" = Some (PyStr (PERSONA_ID cfg)) ∧
  payload !! "replica_id" =
    (if truthy_str (REPLICA_ID cfg) then Some (of_optional (REPLICA_ID cfg)) else None) ∧
  (∀ k, k ∈ allow_list → payload !! k = inbound !! k) ∧
  (∀ k, k ≠ "persona_id" → k ≠ "replica_id" → k ∉ allow_list → payload !! k = None).

(** The map [p] that the merge loop over the keys [inX] makes of [p0]. *)
Definition merged (d p0 : gmap string value) (inX : string → Prop)
    (p : gmap string value) : Prop :=
  ∀ k, (inX k → p !! k = match d !! k with Some x => Some x | None => p0 !! k end) ∧
       (¬ inX k → p !! k = p0 !! k).

(** The entries of the payload before the merge loop. *)
Definition fixed_entry (cfg : secrets) (k : string) : option value :=
  if decide (k = "persona_id") then Some (PyStr (PERSONA_ID cfg))
  else if decide (k = "replica_id") then
    (if truthy_str (REPLICA_ID cfg) then Some (of_optional (REPLICA_ID cfg)) else None)
  else None.

(** The secrets with no replica configured. *)
Definition without_replica (cfg : secrets) : secrets :=
  {| API_KEY := API_KEY cfg; PERSONA_ID := PERSONA_ID cfg; REPLICA_ID := None |}.

(** The CORS and content-type fields the specification wants on every
    response. *)
Definition cors_headers : list (string * string) :=
  [ ("Content-Type", "application/json");
    ("Access-Control-Allow-Origin", "*");
    ("Access-Control-Allow-Methods", "POST, OPTIONS");
    ("Access-Control-Allow-Headers", "Content-Type") ]%string.

(** ** Names for parts of the handlers

    Both handlers start the payload with the same two statements, and
    both run the same test, [key in extra], on whatever the body parsed
    to. *)

(** [payload = {persona_id}] and [if REPLICA_ID: payload[replica_id] =
    REPLICA_ID], before the merge loop. *)
Definition initial_payload (cfg : secrets) : gmap string value :=
  let payload := {[ "persona_id" := PyStr (PERSONA_ID cfg) ]} in
  if truthy_str (REPLICA_ID cfg)
  then <[ "replica_id" := of_optional (REPLICA_ID cfg) ]> payload
  else payload.

(** The loop enters its body on [key], or cannot run the test at all:
    [key in extra] is not a plain [False]. *)
Definition hits (extra : value) (key : string) : bool :=
  match contains extra key with
  | inr false => false
  | _ => true
  end.

Definition is_dict (v : value) : bool :=
  match v with
  | PyDict _ => true
  | _ => false
  end.

(** [None], a [bool], an [int] or a [float]. *)
Definition is_scalar (v : value) : bool :=
  match v with
  | PyNone | PyBool _ | PyInt _ | PyFloat _ => true
  | _ => false
  end.

(** Where a call goes and what it carries: everything but the timeout. *)
Definition target (c : requests.Call) :
    string * gmap string string * gmap string value :=
  (requests.url c, requests.headers c, requests.json c).

(** ** Concrete requests, library behaviour and upstreams

    The inputs at which the theorems below are instantiated and the code
    is evaluated. *)

Module Demo.

Definition cfg : secrets :=
  {| API_KEY := "sk_key"; PERSONA_ID := "p_demo"; REPLICA_ID := Some "r_demo" |}.

(** The secrets that [environ] below yields. *)
Definition unconfigured : secrets :=
  {| API_KEY := "sk_key"; PERSONA_ID := "p_demo"; REPLICA_ID := Some EmptyString |}.

Definition environ : gmap string string :=
  {[ "TAVUS_API_KEY" := "sk_key"; "PERSONA_ID" := "p_demo"; "REPLICA_ID" := "" ]}.

(** [int] on a text of decimal digits. *)
Fixpoint digits (s : string) (acc : Z) : option Z :=
  match s with
  | EmptyString => Some acc
  | String c rest =>
      let n := Z.of_nat (nat_of_ascii c) in
      if (48 <=? n) && (n <=? 57) then digits rest (10 * acc + (n - 48)) else None
  end.

Definition int (s : string) : option Z :=
  match s with
  | EmptyString => None
  | _ => digits s 0
  end.

(** [bytes.decode('utf-8')] on ASCII bytes, and on the byte [0xff] that
    no UTF-8 text contains. *)
Definition decode (b : bytes) : option string :=
  if forallb (fun x => (Byte.to_N x <? 128)%N) b
  then Some (string_of_list_byte b) else None.

Definition quoted (s : string) : string :=
  String "034" (s ++ String "034" EmptyString).

(** The object with [conversation_name] demo, [persona_id] p_other and
    [audio_only] true, as a JSON text. *)
Definition named_text : string :=
  "{" ++ quoted "conversation_name" ++ ": " ++ quoted "demo" ++ ", "
      ++ quoted "persona_id" ++ ": " ++ quoted "p_other" ++ ", "
      ++ quoted "audio_only" ++ ": true}".

Definition named : gmap string value :=
  {[ "conversation_name" := PyStr "demo";
     "persona_id" := PyStr "p_other";
     "audio_only" := PyBool true ]}.

(** What is forwarded of [named] when no replica is configured. *)
Definition named_payload : gmap string value :=
  {[ "persona_id" := PyStr "p_demo";
     "conversation_name" := PyStr "demo";
     "audio_only" := PyBool true ]}.

(** [rfile.read(n)] on a 64-bit machine with memory to spare. *)
Definition read_raises (n : Z) : option exception :=
  if 2 ^ 63 <=? n then Some OverflowError else None.

(** [json.loads] on the three texts used here: an object, the empty
    object, and a text that is no JSON. *)
Definition loads (s : string) : exception + value :=
  if String.eqb s named_text then inr (PyDict named)
  else if String.eqb s "{}" then inr (PyDict ∅)
  else inl JSONDecodeError.

Definition loads_bytes (b : bytes) : exception + value :=
  match decode b with
  | Some s => loads s
  | None => inl UnicodeDecodeError
  end.

Definition post_request (body content_length : string) : Server.request :=
  {| Server.path := "/create-conversation";
     Server.headers := [("content-length", content_length)];
     Server.rfile := list_byte_of_string body |}.

Definition named_request : Server.request := post_request named_text "74".
Definition malformed_request : Server.request := post_request "{not json" "9".
Definition empty_request : Server.request :=
  {| Server.path := "/create-conversation"; Server.headers := []; Server.rfile := [] |}.

(** A body of 5000 opening brackets: no JSON, and nested too deep for
    [json.loads], which raises [RecursionError] on it. *)
Fixpoint brackets (n : nat) : string :=
  match n with
  | O => EmptyString
  | S n => String "[" (brackets n)
  end.

Definition loads_deep (s : string) : exception + value :=
  if String.eqb s (brackets 5000) then inl RecursionError else inl JSONDecodeError.

Definition deep_request : Server.request := post_request (brackets 5000) "5000".

(** A [Content-Length] of 2^63, one more than [rfile.read] can take. *)
Definition oversized_request : Server.request :=
  post_request "{}" "9223372036854775808".

(** A body of one byte, [0xff], which is no UTF-8 text. *)
Definition undecodable_request : Server.request :=
  {| Server.path := "/create-conversation";
     Server.headers := [("Content-Length", "1")];
     Server.rfile := [Byte.xff] |}.

(** What is forwarded of an empty object under [cfg]. *)
Definition bare_payload : gmap string value :=
  {[ "persona_id" := PyStr "p_demo"; "replica_id" := PyStr "r_demo" ]}.

Definition flask_request (body : string) : Flask.request :=
  {| Flask.data := list_byte_of_string body; Flask.is_json := true |}.

(** Upstreams. *)
Definition answers (r : requests.Response) :
    requests.Call → requests.RequestException + requests.Response :=
  fun _ => inr r.

Definition refuses : requests.Call → requests.RequestException + requests.Response :=
  fun _ => inl (requests.ConnectionError "Connection refused").

(** 200, an object with [conversation_url] https://x and
    [conversation_id] c1. *)
Definition created : requests.Response :=
  {| requests.status_code := 200;
     requests.text :=
       "{" ++ quoted "conversation_url" ++ ": " ++ quoted "https://x" ++ ", "
           ++ quoted "conversation_id" ++ ": " ++ quoted "c1" ++ "}";
     requests.json_ := inr (PyDict
       {[ "conversation_url" := PyStr "https://x"; "conversation_id" := PyStr "c1" ]}) |}.

(** 200, the same object with one more member, [status] active. *)
Definition created_with_status : requests.Response :=
  {| requests.status_code := 200;
     requests.text :=
       "{" ++ quoted "conversation_url" ++ ": " ++ quoted "https://x" ++ ", "
           ++ quoted "conversation_id" ++ ": " ++ quoted "c1" ++ ", "
           ++ quoted "status" ++ ": " ++ quoted "active" ++ "}";
     requests.json_ := inr (PyDict
       {[ "conversation_url" := PyStr "https://x"; "conversation_id" := PyStr "c1";
          "status" := PyStr "active" ]}) |}.

(** 200, an object with [conversation_url] https://x only. *)
Definition created_without_id : requests.Response :=
  {| requests.status_code := 200;
     requests.text := "{" ++ quoted "conversation_url" ++ ": " ++ quoted "https://x" ++ "}";
     requests.json_ := inr (PyDict {[ "conversation_url" := PyStr "https://x" ]}) |}.

(** 200, an object with [conversation_id] c1 only. *)
Definition id_only : requests.Response :=
  {| requests.status_code := 200;
     requests.text := "{" ++ quoted "conversation_id" ++ ": " ++ quoted "c1" ++ "}";
     requests.json_ := inr (PyDict {[ "conversation_id" := PyStr "c1" ]}) |}.

(** 200, an object whose [conversation_url] is the empty string. *)
Definition empty_url : requests.Response :=
  {| requests.status_code := 200;
     requests.text :=
       "{" ++ quoted "conversation_url" ++ ": " ++ quoted "" ++ ", "
           ++ quoted "conversation_id" ++ ": " ++ quoted "c1" ++ "}";
     requests.json_ := inr (PyDict
       {[ "conversation_url" := PyStr ""; "conversation_id" := PyStr "c1" ]}) |}.

(** 200, an object whose only member is [conversation_url], null. *)
Definition null_url : requests.Response :=
  {| requests.status_code := 200;
     requests.text := "{" ++ quoted "conversation_url" ++ ": null}";
     requests.json_ := inr (PyDict {[ "conversation_url" := PyNone ]}) |}.

(** 200 with the empty array as body. *)
Definition empty_array : requests.Response :=
  {| requests.status_code := 200;
     requests.text := "[]";
     requests.json_ := inr (PyList []) |}.

(** 200 with the text Forbidden, which is no JSON. *)
Definition forbidden_200 : requests.Response :=
  {| requests.status_code := 200;
     requests.text := "Forbidden";
     requests.json_ :=
       inl (RequestException (requests_exceptions.JSONDecodeError "Expecting value")) |}.

(** 403 with the text Forbidden, which is no JSON. *)
Definition forbidden : requests.Response :=
  {| requests.status_code := 403;
     requests.text := "Forbidden";
     requests.json_ :=
       inl (RequestException (requests_exceptions.JSONDecodeError "Expecting value")) |}.

(** Two requests that differ after the two bytes their [Content-Length]
    announces. *)
Definition short_request : Server.request := post_request "{}" "2".
Definition padded_request : Server.request := post_request "{}, and more" "2".

(** A body that is the JSON number 5, and one that is the JSON array of
    the text audio_only. *)
Definition loads_five (s : string) : exception + value :=
  if String.eqb s "5" then inr (PyInt 5) else inl JSONDecodeError.

Definition five_request : Server.request := post_request "5" "1".

Definition loads_array (s : string) : exception + value :=
  if String.eqb s ("[" ++ quoted "audio_only" ++ "]")
  then inr (PyList [PyStr "audio_only"]) else inl JSONDecodeError.

Definition array_request : Server.request :=
  post_request ("[" ++ quoted "audio_only" ++ "]") "14".

(** A body that is an object with a [replica_id] of its own, r_other. *)
Definition replica_text : string :=
  "{" ++ quoted "replica_id" ++ ": " ++ quoted "r_other" ++ "}".

Definition loads_replica (s : string) : exception + value :=
  if String.eqb s replica_text
  then inr (PyDict {[ "replica_id" := PyStr "r_other" ]}) else inl JSONDecodeError.

Definition replica_request : Server.request := post_request replica_text "25".

(** What [do_POST] writes when the upstream answers [forbidden], and when
    it answers [created]. *)
Definition forbidden_relayed : response :=
  {| status := 403;
     sent_headers := [("Content-Type", "application/json")];
     body := json_dumps (PyDict
       {[ "error" := PyStr "Tavus API error";
          "status_code" := PyInt 403;
          "details" := PyStr "Forbidden" ]}) |}.

Definition created_relayed : response :=
  {| status := 200;
     sent_headers :=
       [("Access-Control-Allow-Origin", "*");
        ("Access-Control-Allow-Methods", "POST, OPTIONS");
        ("Access-Control-Allow-Headers", "Content-Type");
        ("Content-Type", "application/json")];
     body := json_dumps (PyDict
       {[ "conversation_url" := PyStr "https://x"; "conversation_id" := PyStr "c1" ]}) |}.

(** An environment whose [PERSONA_ID] is set but empty. *)
Definition empty_persona_environ : gmap string string :=
  {[ "TAVUS_API_KEY" := "sk_key"; "PERSONA_ID" := "" ]}.

Definition empty_persona : secrets :=
  {| API_KEY := "sk_key"; PERSONA_ID := EmptyString; REPLICA_ID := None |}.

(** The environment that yields [cfg]. *)
Definition full_environ : gmap string string :=
  {[ "TAVUS_API_KEY" := "sk_key"; "PERSONA_ID" := "p_demo"; "REPLICA_ID" := "r_demo" ]}.

(** A request whose [Content-Length] is no number. *)
Definition bad_length_request : Server.request := post_request "{}" "two".

(** A request that does not declare a JSON body. *)
Definition undeclared_request : Flask.request :=
  {| Flask.data := list_byte_of_string named_text; Flask.is_json := false |}.

End Demo.

(** ** The merge loop *)

Lemma merge_key_dict (d payload : gmap string value) (key : string) :
  merge_key (PyDict d) key (inr payload) =
  inr (match d !! key with Some x => <[ key := x ]> payload | None => payload end).
Proof.
  unfold merge_key, contains, getitem.
  destruct (d !! key) as [x|] eqn:E.
  - rewrite bool_decide_eq_true_2 by eauto. reflexivity.
  - rewrite bool_decide_eq_false_2; [reflexivity|].
    intros [x Hx]. discriminate.
Qed.

Lemma set_fold_merge (d p0 : gmap string value) (X : gset string) :
  ∃ p, set_fold (merge_key (PyDict d)) (inr p0) X = inr p ∧ merged d p0 (λ k, k ∈ X) p.
Proof.
  apply (set_fold_ind_L
    (λ r (X : gset string), ∃ p, r = inr p ∧ merged d p0 (λ k, k ∈ X) p)).
  - exists p0. split; [reflexivity|]. intros k. split; [set_solver|done].
  - intros x Y r Hx (p & -> & Hp). rewrite merge_key_dict.
    eexists. split; [reflexivity|]. intros k. destruct (Hp k) as [Hin Hout]. split.
    + intros Hk. destruct (decide (k = x)) as [->|Hne].
      * destruct (d !! x) eqn:E; [by rewrite lookup_insert_eq|by apply Hout].
      * assert (k ∈ Y) as HY.
        { apply elem_of_union in Hk as [Hk|Hk]; [by apply elem_of_singleton in Hk|done]. }
        destruct (d !! x); [rewrite lookup_insert_ne by done|]; by apply Hin.
    + intros Hk. assert (k ≠ x ∧ k ∉ Y) as [? ?] by set_solver.
      destruct (d !! x); [rewrite lookup_insert_ne by done|]; by apply Hout.
Qed.

Lemma foldl_merge (d : gmap string value) (l : list string) (p0 : gmap string value) :
  ∃ p, foldl (λ acc k, merge_key (PyDict d) k acc) (inr p0) l = inr p ∧
       merged d p0 (λ k, k ∈ l) p.
Proof.
  revert p0. induction l as [|x l IH]; intros p0; cbn [foldl].
  - exists p0. split; [reflexivity|]. intros k. split; [by intros ?%elem_of_nil|done].
  - rewrite merge_key_dict.
    destruct (IH (match d !! x with Some v => <[x:=v]> p0 | None => p0 end))
      as (p & -> & Hp).
    exists p. split; [reflexivity|]. intros k. destruct (Hp k) as [Hin Hout]. split.
    + intros Hk. destruct (decide (k ∈ l)) as [Hl|Hl].
      * rewrite Hin by done. destruct (d !! k) eqn:E; [done|].
        destruct (decide (k = x)) as [->|Hne]; [by rewrite E|].
        destruct (d !! x); [by rewrite lookup_insert_ne|done].
      * assert (k = x) as -> by (apply elem_of_cons in Hk as [Hk|Hk]; done).
        rewrite Hout by done.
        destruct (d !! x); [by rewrite lookup_insert_eq|done].
    + intros Hk. assert (k ≠ x ∧ k ∉ l) as [? ?] by set_solver.
      rewrite Hout by done. destruct (d !! x); [by rewrite lookup_insert_ne|done].
Qed.

Lemma base_payload_lookup (cfg : secrets) :
  let payload : gmap string value := {[ "persona_id" := PyStr (PERSONA_ID cfg) ]} in
  let p0 := if truthy_str (REPLICA_ID cfg)
            then <[ "replica_id" := of_optional (REPLICA_ID cfg) ]> payload
            else payload in
  p0 !! "persona_id" = Some (PyStr (PERSONA_ID cfg)) ∧
  p0 !! "replica_id" =
    (if truthy_str (REPLICA_ID cfg) then Some (of_optional (REPLICA_ID cfg)) else None) ∧
  (∀ k, k ≠ "persona_id" → k ≠ "replica_id" → p0 !! k = None).
Proof.
  intros payload p0. subst p0 payload.
  destruct (truthy_str (REPLICA_ID cfg)); (split; [|split]).
  all: try (intros k H1 H2).
  all: by simplify_map_eq.
Qed.

Lemma allowed_keys_list (k : string) : k ∈ Server.allowed_keys ↔ k ∈ allow_list.
Proof. unfold Server.allowed_keys, allow_list. set_solver. Qed.

Lemma persona_id_not_allowed : "persona_id" ∉ allow_list.
Proof. unfold allow_list. set_solver. Qed.

Lemma replica_id_not_allowed : "replica_id" ∉ allow_list.
Proof. unfold allow_list. set_solver. Qed.

Lemma merged_forwards (cfg : secrets) (d p0 p : gmap string value) :
  p0 !! "persona_id" = Some (PyStr (PERSONA_ID cfg)) →
  p0 !! "replica_id" =
    (if truthy_str (REPLICA_ID cfg) then Some (of_optional (REPLICA_ID cfg)) else None) →
  (∀ k, k ≠ "persona_id" → k ≠ "replica_id" → p0 !! k = None) →
  merged d p0 (λ k, k ∈ allow_list) p →
  forwards cfg d p.
Proof.
  intros Hp Hr Ho Hm.
  pose proof persona_id_not_allowed as Np.
  pose proof replica_id_not_allowed as Nr.
  repeat split.
  - by rewrite (proj2 (Hm _) Np).
  - by rewrite (proj2 (Hm _) Nr).
  - intros k Hk. rewrite (proj1 (Hm k) Hk).
    destruct (d !! k); [done|]. apply Ho; intros ->; contradiction.
  - intros k H1 H2 Hk. rewrite (proj2 (Hm k) Hk). by apply Ho.
Qed.

(** Whatever the parsed body is, a key the loop does not visit keeps the
    entry it had. *)
Lemma merge_key_other (extra : value) (key k : string)
    (acc : exception + gmap string value) (p : gmap string value) :
  merge_key extra key acc = inr p → k ≠ key →
  ∃ p', acc = inr p' ∧ p !! k = p' !! k.
Proof.
  unfold merge_key. intros H Hne.
  destruct acc as [e|p']; [discriminate|].
  destruct (contains extra key) as [e|[|]]; [discriminate| |].
  - destruct (getitem extra key) as [e|x]; [discriminate|].
    injection H as <-. exists p'. by rewrite lookup_insert_ne.
  - injection H as <-. by exists p'.
Qed.

Lemma set_fold_merge_other (extra : value) (p0 p : gmap string value)
    (X : gset string) (k : string) :
  set_fold (merge_key extra) (inr p0) X = inr p → k ∉ X → p !! k = p0 !! k.
Proof.
  revert p.
  apply (set_fold_ind_L
    (λ r (X : gset string), ∀ p, r = inr p → k ∉ X → p !! k = p0 !! k)).
  - intros p [= <-] _. reflexivity.
  - intros x Y r Hx IH p Hp Hk.
    apply not_elem_of_union in Hk as [Hkx%not_elem_of_singleton HkY].
    destruct (merge_key_other _ _ k _ _ Hp Hkx) as (p' & -> & ->). by apply IH.
Qed.

Lemma foldl_merge_other (extra : value) (l : list string) (p0 p : gmap string value)
    (k : string) :
  foldl (λ acc key, merge_key extra key acc) (inr p0) l = inr p →
  k ∉ l → p !! k = p0 !! k.
Proof.
  revert p. induction l as [|x l IH] using rev_ind; intros p.
  - intros [= <-] _. reflexivity.
  - rewrite foldl_app. cbn [foldl]. intros Hp Hk.
    apply not_elem_of_app in Hk as [Hl Hx%not_elem_of_cons].
    destruct (merge_key_other _ _ k _ _ Hp (proj1 Hx)) as (p' & Hp' & ->). by apply IH.
Qed.

(** ** The payload of either variant *)

Lemma server_payload (cfg : secrets) (d : gmap string value) :
  ∃ p, Server.build_payload cfg (PyDict d) = inr p ∧ forwards cfg d p.
Proof.
  unfold Server.build_payload.
  destruct (base_payload_lookup cfg) as (Hp & Hr & Ho).
  edestruct set_fold_merge as (p & -> & Hm).
  exists p. split; [reflexivity|].
  eapply merged_forwards; [exact Hp|exact Hr|exact Ho|].
  intros k. destruct (Hm k) as [Hin Hout].
  split; intros Hk; [apply Hin|apply Hout]; by rewrite allowed_keys_list.
Qed.

Lemma flask_payload (cfg : secrets) (d : gmap string value) :
  ∃ p, Flask.build_payload cfg (PyDict d) = inr p ∧ forwards cfg d p.
Proof.
  unfold Flask.build_payload.
  destruct (base_payload_lookup cfg) as (Hp & Hr & Ho).
  edestruct foldl_merge as (p & -> & Hm).
  exists p. split; [reflexivity|].
  eapply merged_forwards; [exact Hp|exact Hr|exact Ho|exact Hm].
Qed.

Lemma base_payload_fixed (cfg : secrets) (k : string) :
  (if truthy_str (REPLICA_ID cfg)
   then <[ "replica_id" := of_optional (REPLICA_ID cfg) ]>
          ({[ "persona_id" := PyStr (PERSONA_ID cfg) ]} : gmap string value)
   else {[ "persona_id" := PyStr (PERSONA_ID cfg) ]}) !! k = fixed_entry cfg k.
Proof.
  destruct (base_payload_lookup cfg) as (Hp & Hr & Ho). unfold fixed_entry.
  destruct (decide (k = "persona_id")) as [->|N1]; [exact Hp|].
  destruct (decide (k = "replica_id")) as [->|N2]; [exact Hr|].
  by apply Ho.
Qed.

(** Whatever the parsed body is (an object, a list, a text, a number), a
    payload that is built has, outside the allow-list, the entries it
    started with: the loop writes no other key, [persona_id] and
    [replica_id] included. *)
Lemma server_payload_outside (cfg : secrets) (extra : value) (p : gmap string value)
    (k : string) :
  Server.build_payload cfg extra = inr p →
  k ∉ allow_list → p !! k = fixed_entry cfg k.
Proof.
  unfold Server.build_payload. intros H Hk.
  rewrite <- base_payload_fixed. apply (set_fold_merge_other _ _ _ _ _ H).
  rewrite allowed_keys_list. exact Hk.
Qed.

Lemma flask_payload_outside (cfg : secrets) (extra : value) (p : gmap string value)
    (k : string) :
  Flask.build_payload cfg extra = inr p →
  k ∉ allow_list → p !! k = fixed_entry cfg k.
Proof.
  unfold Flask.build_payload. intros H Hk.
  rewrite <- base_payload_fixed. apply (foldl_merge_other _ _ _ _ _ H). exact Hk.
Qed.

(** An empty [REPLICA_ID] builds the payload that an unset one builds. *)
Lemma server_payload_empty_replica (cfg : secrets) (extra : value) :
  REPLICA_ID cfg = Some EmptyString →
  Server.build_payload cfg extra = Server.build_payload (without_replica cfg) extra.
Proof. intros H. unfold Server.build_payload. rewrite H. reflexivity. Qed.

Lemma flask_payload_empty_replica (cfg : secrets) (extra : value) :
  REPLICA_ID cfg = Some EmptyString →
  Flask.build_payload cfg extra = Flask.build_payload (without_replica cfg) extra.
Proof. intros H. unfold Flask.build_payload. rewrite H. reflexivity. Qed.

(** The two builders, with the start of the payload named. *)
Lemma server_build_payload_eq (cfg : secrets) (extra : value) :
  Server.build_payload cfg extra =
  foldr (merge_key extra) (inr (initial_payload cfg)) (elements Server.allowed_keys).
Proof. reflexivity. Qed.

Lemma flask_build_payload_eq (cfg : secrets) (extra : value) :
  Flask.build_payload cfg extra =
  foldl (λ acc k, merge_key extra k acc) (inr (initial_payload cfg)) allow_list.
Proof. reflexivity. Qed.

(** From here on the two payload builders are used through the lemmas
    above only. *)
Opaque Server.build_payload Flask.build_payload.

(** [x or {}] leaves an object as it is. *)
Lemma or_empty_dict (d : gmap string value) : Flask.or_empty (PyDict d) = PyDict d.
Proof.
  unfold Flask.or_empty, truthy.
  destruct (Nat.eqb_spec (size d) 0) as [Hz|Hz]; [|reflexivity].
  apply map_size_empty_inv in Hz. by subst d.
Qed.

Lemma or_empty_none : Flask.or_empty PyNone = PyDict ∅.
Proof. reflexivity. Qed.

(** ** Runs of the two handlers *)

Section runs.

Variable int : string → option Z.
Variable read_raises : Z → option exception.
Variable decode : bytes → option string.
Variable loads : string → exception + value.
Variable bloads : bytes → exception + value.
Variable post : requests.Call → requests.RequestException + requests.Response.
Variable cfg : secrets.

(** Once the body is parsed and the payload built, [do_POST] issues one
    call and translates what comes back. *)
Lemma server_run (self : Server.request) (extra : value) (p : gmap string value) :
  Server.extra_params int read_raises decode loads self = inr extra →
  Server.build_payload cfg extra = inr p →
  Server.do_POST int read_raises decode loads post cfg self =
    {| calls := [Server.call cfg p];
       result :=
         match post (Server.call cfg p) with
         | inl exc => Responds (Server.unreachable exc)
         | inr response => Server.translate response
         end |}.
Proof. intros He Hp. unfold Server.do_POST. rewrite He, Hp. reflexivity. Qed.

(** It issues a call only on that path. *)
Lemma server_calls (self : Server.request) (c : requests.Call) :
  c ∈ calls (Server.do_POST int read_raises decode loads post cfg self) →
  ∃ extra p,
    Server.extra_params int read_raises decode loads self = inr extra ∧
    Server.build_payload cfg extra = inr p ∧ c = Server.call cfg p.
Proof.
  unfold Server.do_POST.
  destruct (Server.extra_params int read_raises decode loads self) as [o|extra]; cbn
      [calls].
  - intros H. apply elem_of_nil in H. destruct H.
  - destruct (Server.build_payload cfg extra) as [e|p] eqn:Hp; cbn [calls]; intros H.
    + apply elem_of_nil in H. destruct H.
    + apply list_elem_of_singleton in H. subst c.
      exists extra, p. split; [reflexivity|]. split; [exact Hp|reflexivity].
Qed.

Lemma flask_run (request : Flask.request) (extra : value) (p : gmap string value) :
  Flask.extra bloads request = inr extra →
  Flask.build_payload cfg extra = inr p →
  Flask.create_conversation bloads post cfg request =
    {| calls := [Flask.call cfg p];
       result :=
         match post (Flask.call cfg p) with
         | inl exc => Raises (RequestException exc)
         | inr resp => Responds (Flask.relay resp)
         end |}.
Proof.
  intros He Hp. unfold Flask.create_conversation. rewrite He, Hp. reflexivity.
Qed.

Lemma flask_calls (request : Flask.request) (c : requests.Call) :
  c ∈ calls (Flask.create_conversation bloads post cfg request) →
  ∃ extra p,
    Flask.extra bloads request = inr extra ∧
    Flask.build_payload cfg extra = inr p ∧
    c = Flask.call cfg p.
Proof.
  unfold Flask.create_conversation.
  destruct (Flask.extra bloads request) as [e|extra]; cbn [calls].
  - intros H. apply elem_of_nil in H. destruct H.
  - destruct (Flask.build_payload cfg extra) as [e|p] eqn:Hp; cbn [calls]; intros H.
    + apply elem_of_nil in H. destruct H.
    + apply list_elem_of_singleton in H. subst c.
      exists extra, p. split; [reflexivity|]. split; [exact Hp|reflexivity].
Qed.

(** [extra] when [get_json] returns. *)
Lemma flask_extra_of (request : Flask.request) (x : value) :
  Flask.get_json bloads request = inr x →
  Flask.extra bloads request = inr (Flask.or_empty x).
Proof. intros H. unfold Flask.extra. rewrite H. reflexivity. Qed.

End runs.

(** C1. For every inbound body parsed as a JSON object [d], either variant
    issues exactly one outbound call, and its payload holds [persona_id]
    from the secrets, [replica_id] when configured, each allow-listed
    member of [d] with the value it has in [d], and no other key: an
    inbound [persona_id] or any other member of [d] is not forwarded. *)
Theorem outbound_payload_exact (cfg : secrets) (d : gmap string value) :
  (∀ int read_raises decode loads post self,
     Server.extra_params int read_raises decode loads self = inr (PyDict d) →
     ∃ c, calls (Server.do_POST int read_raises decode loads post cfg self) = [c] ∧
          forwards cfg d (requests.json c)) ∧
  (∀ bloads post request,
     Flask.get_json bloads request = inr (PyDict d) →
     ∃ c, calls (Flask.create_conversation bloads post cfg request) = [c] ∧
          forwards cfg d (requests.json c)).
Proof.
  split.
  - intros int read_raises decode loads post self He.
    destruct (server_payload cfg d) as (p & Hp & Hf).
    exists (Server.call cfg p). split; [|exact Hf].
    rewrite (server_run _ _ _ _ _ _ _ _ _ He Hp). reflexivity.
  - intros bloads post request Hj.
    destruct (flask_payload cfg d) as (p & Hp & Hf).
    exists (Flask.call cfg p). split; [|exact Hf].
    apply flask_extra_of in Hj. rewrite or_empty_dict in Hj.
    rewrite (flask_run bloads post cfg request _ p Hj Hp). reflexivity.
Qed.

Lemma outbound_payload_exact_witness :
  Server.extra_params Demo.int Demo.read_raises Demo.decode Demo.loads Demo.named_request
    = inr (PyDict Demo.named) ∧
  Flask.get_json Demo.loads_bytes (Demo.flask_request Demo.named_text)
    = inr (PyDict Demo.named) ∧
  (∃ c, calls (Server.do_POST Demo.int Demo.read_raises Demo.decode Demo.loads
                 (Demo.answers Demo.created) Demo.cfg Demo.named_request) = [c] ∧
        forwards Demo.cfg Demo.named (requests.json c)) ∧
  (∃ c, calls (Flask.create_conversation Demo.loads_bytes
                 (Demo.answers Demo.created) Demo.cfg
                 (Demo.flask_request Demo.named_text)) = [c] ∧
        forwards Demo.cfg Demo.named (requests.json c)).
Proof.
  destruct (outbound_payload_exact Demo.cfg Demo.named) as [S F].
  split; [vm_compute; reflexivity|]. split; [vm_compute; reflexivity|].
  split; [apply S|apply F]; vm_compute; reflexivity.
Defined.

(** The payload of that run, written out: the caller's [persona_id] is not
    the one forwarded. *)
Example named_request_payload :
  requests.json <$> calls (Server.do_POST Demo.int Demo.read_raises Demo.decode Demo.loads
                             (Demo.answers Demo.created) Demo.cfg Demo.named_request)
  = [ {[ "persona_id" := PyStr "p_demo"; "replica_id" := PyStr "r_demo";
         "conversation_name" := PyStr "demo"; "audio_only" := PyBool true ]} ].
Proof. vm_compute. reflexivity. Qed.

Lemma server_startup_replica (environ : gmap string string) (cfg : secrets) :
  Server.startup environ = Some cfg → REPLICA_ID cfg = environ !! "REPLICA_ID".
Proof.
  unfold Server.startup. intros H.
  destruct (negb (truthy_str (environ !! "TAVUS_API_KEY")) ||
            negb (truthy_str (environ !! "PERSONA_ID")))%bool; [discriminate H|].
  destruct (environ !! "TAVUS_API_KEY"); [|discriminate H].
  destruct (environ !! "PERSONA_ID"); [|discriminate H].
  injection H as <-. reflexivity.
Qed.

Lemma flask_startup_replica (environ : gmap string string) (cfg : secrets) :
  Flask.startup environ = inr cfg → REPLICA_ID cfg = environ !! "REPLICA_ID".
Proof.
  unfold Flask.startup. intros H.
  destruct (environ !! "TAVUS_API_KEY"); [|discriminate H].
  destruct (environ !! "PERSONA_ID"); [|discriminate H].
  injection H as <-. reflexivity.
Qed.

(** With an empty [REPLICA_ID] a run is the run with none configured. *)
Lemma server_empty_replica_same_run int read_raises decode loads post (cfg : secrets)
    (self : Server.request) :
  REPLICA_ID cfg = Some EmptyString →
  Server.do_POST int read_raises decode loads post cfg self =
  Server.do_POST int read_raises decode loads post (without_replica cfg) self.
Proof.
  intros H. unfold Server.do_POST.
  destruct (Server.extra_params int read_raises decode loads self) as [o|extra];
      [reflexivity|].
  rewrite (server_payload_empty_replica cfg extra H). reflexivity.
Qed.

Lemma flask_empty_replica_same_run bloads post (cfg : secrets) (request : Flask.request) :
  REPLICA_ID cfg = Some EmptyString →
  Flask.create_conversation bloads post cfg request =
  Flask.create_conversation bloads post (without_replica cfg) request.
Proof.
  intros H. unfold Flask.create_conversation.
  destruct (Flask.extra bloads request) as [e|extra]; [reflexivity|].
  rewrite (flask_payload_empty_replica cfg extra H). reflexivity.
Qed.

(** C9. When the environment sets [REPLICA_ID] to the empty string, no
    outbound call of either variant, for any request, has a [replica_id]
    key in its payload: the test is the truthiness of the value. *)
Theorem empty_replica_id_is_unconfigured (environ : gmap string string) :
  environ !! "REPLICA_ID" = Some EmptyString →
  (∀ cfg int read_raises decode loads post self c,
     Server.startup environ = Some cfg →
     c ∈ calls (Server.do_POST int read_raises decode loads post cfg self) →
     requests.json c !! "replica_id" = None) ∧
  (∀ cfg bloads post request c,
     Flask.startup environ = inr cfg →
     c ∈ calls (Flask.create_conversation bloads post cfg request) →
     requests.json c !! "replica_id" = None).
Proof.
  intros Henv. split.
  - intros cfg int read_raises decode loads post self c Hs Hc.
    apply server_startup_replica in Hs. rewrite Henv in Hs.
    apply server_calls in Hc as (extra & p & _ & Hp & ->).
    change (p !! "replica_id" = None).
    rewrite (server_payload_outside _ _ _ _ Hp replica_id_not_allowed).
    unfold fixed_entry. rewrite Hs. reflexivity.
  - intros cfg bloads post request c Hs Hc.
    apply flask_startup_replica in Hs. rewrite Henv in Hs.
    apply flask_calls in Hc as (extra & p & _ & Hp & ->).
    change (p !! "replica_id" = None).
    rewrite (flask_payload_outside _ _ _ _ Hp replica_id_not_allowed).
    unfold fixed_entry. rewrite Hs. reflexivity.
Qed.

Lemma empty_replica_id_is_unconfigured_witness :
  Demo.environ !! "REPLICA_ID" = Some EmptyString ∧
  Server.startup Demo.environ = Some Demo.unconfigured ∧
  Flask.startup Demo.environ = inr Demo.unconfigured ∧
  calls (Server.do_POST Demo.int Demo.read_raises Demo.decode Demo.loads
           (Demo.answers Demo.created) Demo.unconfigured Demo.named_request)
    = [Server.call Demo.unconfigured Demo.named_payload] ∧
  calls (Flask.create_conversation Demo.loads_bytes
           (Demo.answers Demo.created) Demo.unconfigured
           (Demo.flask_request Demo.named_text))
    = [Flask.call Demo.unconfigured Demo.named_payload] ∧
  requests.json (Server.call Demo.unconfigured Demo.named_payload) !! "replica_id" = None ∧
  requests.json (Flask.call Demo.unconfigured Demo.named_payload) !! "replica_id" = None.
Proof.
  assert (Demo.environ !! "REPLICA_ID" = Some EmptyString) as Henv
    by (vm_compute; reflexivity).
  destruct (empty_replica_id_is_unconfigured Demo.environ Henv) as [S F].
  split; [exact Henv|].
  split; [vm_compute; reflexivity|]. split; [vm_compute; reflexivity|].
  split; [vm_compute; reflexivity|]. split; [vm_compute; reflexivity|]. split.
  - apply (S Demo.unconfigured Demo.int Demo.read_raises Demo.decode Demo.loads
             (Demo.answers Demo.created) Demo.named_request);
      [vm_compute; reflexivity|vm_compute; apply list_elem_of_here].
  - apply (F Demo.unconfigured Demo.loads_bytes (Demo.answers Demo.created)
             (Demo.flask_request Demo.named_text));
      [vm_compute; reflexivity|vm_compute; apply list_elem_of_here].
Defined.

(** ** From the outbound call to the response *)

Section results.

Variable int : string → option Z.
Variable read_raises : Z → option exception.
Variable decode : bytes → option string.
Variable loads : string → exception + value.
Variable bloads : bytes → exception + value.
Variable post : requests.Call → requests.RequestException + requests.Response.
Variable cfg : secrets.

Lemma server_result (self : Server.request) (c : requests.Call) :
  calls (Server.do_POST int read_raises decode loads post cfg self) = [c] →
  result (Server.do_POST int read_raises decode loads post cfg self) =
    match post c with
    | inl exc => Responds (Server.unreachable exc)
    | inr response => Server.translate response
    end.
Proof.
  intros Hc.
  assert (c ∈ calls (Server.do_POST int read_raises decode loads post cfg self)) as Hin
    by (rewrite Hc; apply list_elem_of_here).
  apply server_calls in Hin as (extra & p & He & Hp & ->).
  rewrite (server_run _ _ _ _ post _ _ _ _ He Hp). reflexivity.
Qed.

Lemma flask_result (request : Flask.request) (c : requests.Call) :
  calls (Flask.create_conversation bloads post cfg request) = [c] →
  result (Flask.create_conversation bloads post cfg request) =
    match post c with
    | inl exc => Raises (RequestException exc)
    | inr resp => Responds (Flask.relay resp)
    end.
Proof.
  intros Hc.
  assert (c ∈ calls (Flask.create_conversation bloads post cfg request)) as Hin
    by (rewrite Hc; apply list_elem_of_here).
  apply flask_calls in Hin as (extra & p & He & Hp & ->).
  rewrite (flask_run _ post _ _ _ _ He Hp). reflexivity.
Qed.

(** The first part of [do_POST] on a request to the handled path. *)
Lemma extra_params_on_path (self : Server.request) (n : Z) :
  Server.path self = "/create-conversation" →
  Server.content_length int self = inr n →
  Server.extra_params int read_raises decode loads self =
    match Server.read_body read_raises self n with
    | inl e => inl (Raises e)
    | inr [] => inr (PyDict ∅)
    | inr body =>
        match decode body with
        | None => inl (Raises UnicodeDecodeError)
        | Some s =>
            match loads s with
            | inl e =>
                if is_json_decode_error e
                then inl (Responds (Server.send_error 400 "Invalid JSON in request body"))
                else inl (Raises e)
            | inr v => inr v
            end
        end
    end.
Proof.
  intros Hpath Hn. unfold Server.extra_params.
  rewrite Hpath, String.eqb_refl, Hn. reflexivity.
Qed.

End results.

(** What [translate] makes of an upstream answer. *)
Lemma translate_not_200 (response : requests.Response) :
  requests.status_code response ≠ 200 →
  Server.translate response =
    Responds
      {| status := requests.status_code response;
         sent_headers := [("Content-Type", "application/json")];
         body := json_dumps (PyDict
           {[ "error" := PyStr "Tavus API error";
              "status_code" := PyInt (requests.status_code response);
              "details" := PyStr (requests.text response) ]}) |}.
Proof.
  intros H. unfold Server.translate.
  destruct (Z.eqb_spec (requests.status_code response) 200) as [E|_];
    [contradiction|reflexivity].
Qed.

Lemma translate_200_object (response : requests.Response) (data : gmap string value) :
  requests.status_code response = 200 →
  requests.json_ response = inr (PyDict data) →
  Server.translate response =
    if truthy (default PyNone (data !! "conversation_url")) then
      Responds
        {| status := 200;
           sent_headers :=
             [("Access-Control-Allow-Origin", "*");
              ("Access-Control-Allow-Methods", "POST, OPTIONS");
              ("Access-Control-Allow-Headers", "Content-Type");
              ("Content-Type", "application/json")];
           body := json_dumps (PyDict
             {[ "conversation_url" := default PyNone (data !! "conversation_url");
                "conversation_id" := default PyNone (data !! "conversation_id") ]}) |}
    else
      Responds
        {| status := 500;
           sent_headers := [("Content-Type", "application/json")];
           body := json_dumps (PyDict
             {[ "error" := PyStr "Invalid response from Tavus API";
                "details" := PyDict data ]}) |}.
Proof.
  intros Hs Hj. unfold Server.translate. rewrite Hs, Hj. cbn [Z.eqb Pos.eqb negb get].
  destruct (truthy (default PyNone (data !! "conversation_url"))); reflexivity.
Qed.

(** ** Malformed and empty bodies *)

(** C2 as stated fails on the Flask variant: a body that is not empty and
    is no JSON is read as the empty object, the upstream is called, and
    the caller gets the upstream's 200, not a 400. *)
Lemma flask_forwards_malformed_body :
  Flask.data (Demo.flask_request "{not json") ≠ [] ∧
  Demo.loads_bytes (Flask.data (Demo.flask_request "{not json")) = inl JSONDecodeError ∧
  calls (Flask.create_conversation Demo.loads_bytes (Demo.answers Demo.created)
           Demo.cfg (Demo.flask_request "{not json"))
    = [Flask.call Demo.cfg Demo.bare_payload] ∧
  status_of (result (Flask.create_conversation Demo.loads_bytes
                       (Demo.answers Demo.created) Demo.cfg
                       (Demo.flask_request "{not json")))
    = Some 200.
Proof.
  split; [vm_compute; discriminate|].
  repeat split; vm_compute; reflexivity.
Qed.

(** C2, amended. In the [http.server] variant, take a POST to the handled
    path whose [Content-Length] is an integer and whose body is read
    without an error. If the body read is not empty, decodes as UTF-8 and
    [json.loads] rejects it with [json.JSONDecodeError], the status is 400
    and no outbound call is made. If the body read is empty (no
    [Content-Length], or one that is not above zero, or nothing sent), it
    is forwarded as the empty object. In the Flask variant a body on
    which [json.loads] raises a [ValueError] ([json.JSONDecodeError] and
    [UnicodeDecodeError] included) is forwarded as the empty object too:
    the call is made. *)
Theorem malformed_body_handling (cfg : secrets) :
  (∀ int read_raises decode loads post self n body s e,
     Server.path self = "/create-conversation" →
     Server.content_length int self = inr n →
     Server.read_body read_raises self n = inr body →
     body ≠ [] →
     decode body = Some s →
     loads s = inl e →
     is_json_decode_error e = true →
     calls (Server.do_POST int read_raises decode loads post cfg self) = [] ∧
     status_of (result (Server.do_POST int read_raises decode loads post cfg self))
       = Some 400) ∧
  (∀ int read_raises decode loads post self n,
     Server.path self = "/create-conversation" →
     Server.content_length int self = inr n →
     Server.read_body read_raises self n = inr [] →
     ∃ c, calls (Server.do_POST int read_raises decode loads post cfg self) = [c] ∧
          forwards cfg ∅ (requests.json c)) ∧
  (∀ bloads post request e,
     bloads (Flask.data request) = inl e →
     is_value_error e = true →
     ∃ c, calls (Flask.create_conversation bloads post cfg request) = [c] ∧
          forwards cfg ∅ (requests.json c)).
Proof.
  split; [|split].
  - intros int read_raises decode loads post self n body s e Hpath Hn Hbody Hne Hd Hl He.
    unfold Server.do_POST.
    rewrite (extra_params_on_path int read_raises decode loads self n Hpath Hn), Hbody.
    destruct body as [|b bs]; [contradiction|].
    rewrite Hd, Hl, He. split; reflexivity.
  - intros int read_raises decode loads post self n Hpath Hn Hbody.
    assert (Server.extra_params int read_raises decode loads self = inr (PyDict ∅)) as He.
    { rewrite (extra_params_on_path int read_raises decode loads self n Hpath Hn), Hbody.
      reflexivity. }
    destruct (server_payload cfg ∅) as (p & Hp & Hf).
    exists (Server.call cfg p). split; [|exact Hf].
    rewrite (server_run _ _ _ _ post _ _ _ _ He Hp). reflexivity.
  - intros bloads post request e Hl He.
    destruct (flask_payload cfg ∅) as (p & Hp & Hf).
    exists (Flask.call cfg p). split; [|exact Hf].
    assert (Flask.extra bloads request = inr (PyDict ∅)) as Hx.
    { unfold Flask.extra, Flask.get_json. rewrite Hl, He.
      destruct (Flask.is_json request); reflexivity. }
    rewrite (flask_run bloads post cfg request _ p Hx Hp). reflexivity.
Qed.

Lemma malformed_body_handling_witness :
  (Server.path Demo.malformed_request = "/create-conversation" ∧
   Server.content_length Demo.int Demo.malformed_request = inr 9 ∧
   Server.read_body Demo.read_raises Demo.malformed_request 9
     = inr (list_byte_of_string "{not json") ∧
   Demo.decode (list_byte_of_string "{not json") = Some "{not json"%string ∧
   Demo.loads "{not json" = inl JSONDecodeError ∧
   calls (Server.do_POST Demo.int Demo.read_raises Demo.decode Demo.loads
            (Demo.answers Demo.created) Demo.cfg Demo.malformed_request) = [] ∧
   status_of (result (Server.do_POST Demo.int Demo.read_raises Demo.decode Demo.loads
                        (Demo.answers Demo.created) Demo.cfg Demo.malformed_request))
     = Some 400) ∧
  (Server.content_length Demo.int Demo.empty_request = inr 0 ∧
   Server.read_body Demo.read_raises Demo.empty_request 0 = inr [] ∧
   ∃ c, calls (Server.do_POST Demo.int Demo.read_raises Demo.decode Demo.loads
                 (Demo.answers Demo.created) Demo.cfg Demo.empty_request) = [c] ∧
        forwards Demo.cfg ∅ (requests.json c)) ∧
  (Demo.loads_bytes (Flask.data (Demo.flask_request "{not json")) = inl JSONDecodeError ∧
   ∃ c, calls (Flask.create_conversation Demo.loads_bytes (Demo.answers Demo.created)
                 Demo.cfg (Demo.flask_request "{not json")) = [c] ∧
        forwards Demo.cfg ∅ (requests.json c)).
Proof.
  destruct (malformed_body_handling Demo.cfg) as (S & E & F).
  split; [|split].
  - do 5 (split; [vm_compute; reflexivity|]).
    apply (S Demo.int Demo.read_raises Demo.decode Demo.loads (Demo.answers Demo.created)
             Demo.malformed_request 9 (list_byte_of_string "{not json")
             "{not json"%string JSONDecodeError).
    + vm_compute; reflexivity.
    + vm_compute; reflexivity.
    + vm_compute; reflexivity.
    + vm_compute; discriminate.
    + vm_compute; reflexivity.
    + vm_compute; reflexivity.
    + reflexivity.
  - do 2 (split; [vm_compute; reflexivity|]).
    apply (E Demo.int Demo.read_raises Demo.decode Demo.loads (Demo.answers Demo.created)
             Demo.empty_request 0); vm_compute; reflexivity.
  - split; [vm_compute; reflexivity|].
    apply (F Demo.loads_bytes (Demo.answers Demo.created)
             (Demo.flask_request "{not json") JSONDecodeError);
      [vm_compute; reflexivity|reflexivity].
Defined.

(** A body that is no UTF-8 text is outside both: [do_POST] catches
    [json.JSONDecodeError] only, so the decoding error leaves the handler
    and no response is written. *)
Example undecodable_body_raises :
  Server.do_POST Demo.int Demo.read_raises Demo.decode Demo.loads (Demo.answers
      Demo.created)
    Demo.cfg Demo.undecodable_request
  = {| calls := []; result := Raises UnicodeDecodeError |}.
Proof. vm_compute. reflexivity. Qed.

(** So is a body nested too deep: [json.loads] raises [RecursionError],
    which is no [json.JSONDecodeError], and no 400 is written. In the
    Flask view the same exception passes [get_json(silent=True)], which
    silences [ValueError] only. *)
Example deeply_nested_body_raises :
  Server.do_POST Demo.int Demo.read_raises Demo.decode Demo.loads_deep
    (Demo.answers Demo.created) Demo.cfg Demo.deep_request
  = {| calls := []; result := Raises RecursionError |} ∧
  Flask.create_conversation (λ _, inl RecursionError) (Demo.answers Demo.created)
    Demo.cfg (Demo.flask_request "{}")
  = {| calls := []; result := Raises RecursionError |}.
Proof. split; vm_compute; reflexivity. Qed.

(** And a [Content-Length] that [rfile.read] cannot take. *)
Example oversized_content_length_raises :
  Server.do_POST Demo.int Demo.read_raises Demo.decode Demo.loads
    (Demo.answers Demo.created) Demo.cfg Demo.oversized_request
  = {| calls := []; result := Raises OverflowError |}.
Proof. vm_compute. reflexivity. Qed.

(** A POST to another path is answered 404 before the body is looked at. *)
Lemma other_path_404 int read_raises decode loads post cfg (self : Server.request) :
  Server.path self ≠ "/create-conversation" →
  Server.do_POST int read_raises decode loads post cfg self =
    {| calls := []; result := Responds (Server.send_error 404 "Not Found") |}.
Proof.
  intros Hpath. unfold Server.do_POST, Server.extra_params.
  destruct (String.eqb_spec (Server.path self) "/create-conversation") as [E|_];
    [contradiction|reflexivity].
Qed.

(** ** Transport failures *)

(** In the [http.server] variant a call that raises is answered 502 with
    the error text and the text of the exception. *)
Lemma server_transport_failure int read_raises decode loads post cfg
    (self : Server.request) (c : requests.Call) (exc : requests.RequestException) :
  calls (Server.do_POST int read_raises decode loads post cfg self) = [c] →
  post c = inl exc →
  ∃ r, result (Server.do_POST int read_raises decode loads post cfg self) = Responds r ∧
       status r = 502 ∧
       body r = json_dumps (PyDict
         {[ "error" := PyStr "Failed to contact Tavus API";
            "details" := PyStr (requests.str exc) ]}).
Proof.
  intros Hc Hpost. rewrite (server_result _ _ _ _ _ _ _ _ Hc), Hpost.
  exists (Server.unreachable exc). repeat split.
Qed.

(** In the Flask variant nothing catches it. *)
Lemma flask_transport_failure bloads post cfg
    (request : Flask.request) (c : requests.Call) (exc : requests.RequestException) :
  calls (Flask.create_conversation bloads post cfg request) = [c] →
  post c = inl exc →
  result (Flask.create_conversation bloads post cfg request)
    = Raises (RequestException exc).
Proof.
  intros Hc Hpost. rewrite (flask_result _ _ _ _ _ Hc), Hpost. reflexivity.
Qed.

(** C4. The Flask variant breaks it: with an upstream that refuses the
    connection, [create_conversation] issues its call and ends with the
    [requests] exception, so the view writes no 502 and no JSON body. *)
Theorem flask_connection_error_is_not_caught :
  calls (Flask.create_conversation Demo.loads_bytes Demo.refuses Demo.cfg
           (Demo.flask_request "{}"))
    = [Flask.call Demo.cfg Demo.bare_payload] ∧
  Demo.refuses (Flask.call Demo.cfg Demo.bare_payload)
    = inl (requests.ConnectionError "Connection refused") ∧
  result (Flask.create_conversation Demo.loads_bytes Demo.refuses Demo.cfg
            (Demo.flask_request "{}"))
    = Raises (RequestException (requests.ConnectionError "Connection refused")) ∧
  status_of (result (Flask.create_conversation Demo.loads_bytes Demo.refuses Demo.cfg
                       (Demo.flask_request "{}")))
    = None.
Proof. repeat split; vm_compute; reflexivity. Qed.

(** The same upstream behind the [http.server] variant. *)
Example server_connection_error_502 :
  result (Server.do_POST Demo.int Demo.read_raises Demo.decode Demo.loads Demo.refuses
            Demo.cfg Demo.empty_request)
  = Responds
      {| status := 502;
         sent_headers := [("Content-Type", "application/json")];
         body := json_dumps (PyDict
           {[ "error" := PyStr "Failed to contact Tavus API";
              "details" := PyStr "Connection refused" ]}) |}.
Proof. vm_compute. reflexivity. Qed.

(** ** The timeout of the outbound call *)

Lemma server_call_timeout int read_raises decode loads post cfg
    (self : Server.request) (c : requests.Call) :
  c ∈ calls (Server.do_POST int read_raises decode loads post cfg self) →
  requests.timeout c = Some 30.
Proof. intros (extra & p & _ & _ & ->)%server_calls. reflexivity. Qed.

Lemma flask_call_timeout bloads post cfg (request : Flask.request) (c : requests.Call) :
  c ∈ calls (Flask.create_conversation bloads post cfg request) →
  requests.timeout c = None.
Proof. intros (extra & p & _ & _ & ->)%flask_calls. reflexivity. Qed.

(** C8. The Flask variant breaks it: the call it issues for a plain
    request passes no timeout, which for [requests] means no bound. *)
Theorem flask_call_has_no_timeout :
  requests.timeout <$>
    calls (Flask.create_conversation Demo.loads_bytes (Demo.answers Demo.created)
             Demo.cfg (Demo.flask_request "{}"))
  = [None].
Proof. vm_compute. reflexivity. Qed.

(** ** The headers of the responses *)

(** Every response of the Flask view carries the four fields. *)
Lemma flask_response_headers bloads post cfg (request : Flask.request) (r : response) :
  result (Flask.create_conversation bloads post cfg request) = Responds r →
  sent_headers r = cors_headers.
Proof.
  unfold Flask.create_conversation.
  destruct (Flask.extra bloads request) as [e|extra]; cbn [result]; [discriminate 1|].
  destruct (Flask.build_payload cfg extra) as [e|p]; cbn [result]; [discriminate 1|].
  destruct (post (Flask.call cfg p)) as [exc|resp]; [discriminate 1|].
  intros [= <-]. reflexivity.
Qed.

(** Of the responses of [do_POST] only the one with status 200 carries
    [Access-Control-Allow-Origin]. *)
Lemma translate_cors_only_200 (answer : requests.Response) (r : response) :
  Server.translate answer = Responds r →
  has_header r "Access-Control-Allow-Origin" "*" → status r = 200.
Proof.
  unfold Server.translate, has_header.
  destruct (negb (requests.status_code answer =? 200)).
  { intros [= <-]. cbn [sent_headers]. intros H%list_elem_of_singleton. discriminate H. }
  destruct (requests.json_ answer) as [e|data]; [discriminate 1|].
  destruct (get data "conversation_url") as [e|u]; [discriminate 1|].
  destruct (get data "conversation_id") as [e|i]; [discriminate 1|].
  destruct (negb (truthy u)).
  { intros [= <-]. cbn [sent_headers]. intros H%list_elem_of_singleton. discriminate H. }
  intros [= <-] _. reflexivity.
Qed.

Lemma extra_params_done int read_raises decode loads (self : Server.request) (r :
    response) :
  Server.extra_params int read_raises decode loads self = inl (Responds r) →
  r = Server.send_error 404 "Not Found" ∨
  r = Server.send_error 400 "Invalid JSON in request body".
Proof.
  unfold Server.extra_params.
  destruct (negb (Server.path self =? "/create-conversation")%string).
  { intros [= <-]. by left. }
  destruct (Server.content_length int self) as [e|n]; [discriminate 1|].
  destruct (Server.read_body read_raises self n) as [e|[|b bs]];
    [discriminate 1|discriminate 1|].
  destruct (decode (b :: bs)) as [s|]; [|discriminate 1].
  destruct (loads s) as [e|v]; [|discriminate 1].
  destruct (is_json_decode_error e); [|discriminate 1].
  intros [= <-]. by right.
Qed.

Lemma server_cors_only_200 int read_raises decode loads post cfg
    (self : Server.request) (r : response) :
  result (Server.do_POST int read_raises decode loads post cfg self) = Responds r →
  has_header r "Access-Control-Allow-Origin" "*" → status r = 200.
Proof.
  unfold Server.do_POST.
  destruct (Server.extra_params int read_raises decode loads self) as [o|extra] eqn:He;
    cbn [result].
  - intros ->. apply extra_params_done in He as [-> | ->]; unfold has_header;
      cbn [sent_headers Server.send_error]; intros H;
      apply elem_of_cons in H as [H|H%list_elem_of_singleton]; discriminate H.
  - destruct (Server.build_payload cfg extra) as [e|p]; cbn [result]; [discriminate 1|].
    destruct (post (Server.call cfg p)) as [exc|answer].
    + intros [= <-]. unfold has_header. cbn [sent_headers Server.unreachable].
      intros H%list_elem_of_singleton. discriminate H.
    + apply translate_cors_only_200.
Qed.

(** The preflight answer: no outbound call, status 200 and the three CORS
    fields. *)
Lemma options_preflight (self : Server.request) :
  calls (Server.do_OPTIONS self) = [] ∧
  ∃ r, result (Server.do_OPTIONS self) = Responds r ∧
       status r = 200 ∧
       has_header r "Access-Control-Allow-Origin" "*".
Proof.
  split; [reflexivity|]. eexists. split; [reflexivity|]. split; [reflexivity|].
  apply list_elem_of_here.
Qed.

(** C3. The [http.server] variant breaks it: when the upstream answers
    403, [do_POST] relays the status with a single header field,
    [Content-Type], and no [Access-Control-Allow-Origin]. *)
Theorem server_error_response_lacks_cors :
  result (Server.do_POST Demo.int Demo.read_raises Demo.decode Demo.loads
            (Demo.answers Demo.forbidden) Demo.cfg Demo.empty_request)
    = Responds
        {| status := 403;
           sent_headers := [("Content-Type", "application/json")];
           body := json_dumps (PyDict
             {[ "error" := PyStr "Tavus API error";
                "status_code" := PyInt 403;
                "details" := PyStr "Forbidden" ]}) |} ∧
  ¬ has_header
      {| status := 403;
         sent_headers := [("Content-Type", "application/json")];
         body := json_dumps (PyDict
           {[ "error" := PyStr "Tavus API error";
              "status_code" := PyInt 403;
              "details" := PyStr "Forbidden" ]}) |}
      "Access-Control-Allow-Origin" "*".
Proof.
  split; [vm_compute; reflexivity|].
  unfold has_header. cbn [sent_headers].
  intros H%list_elem_of_singleton. discriminate H.
Qed.

(** The Flask view on the same upstream answer does carry it. *)
Example flask_error_response_has_cors :
  ∃ r, result (Flask.create_conversation Demo.loads_bytes (Demo.answers Demo.forbidden)
                 Demo.cfg (Demo.flask_request "{}")) = Responds r ∧
       status r = 403 ∧
       has_header r "Access-Control-Allow-Origin" "*".
Proof.
  eexists. split; [reflexivity|]. split; [reflexivity|].
  unfold has_header. cbn [sent_headers Flask.relay]. set_solver.
Qed.

(** ** Upstream answers other than 200 *)

(** C5 as stated fails on the Flask variant: on a 403 with the text
    Forbidden it relays the status, but the body is that text, not a JSON
    object with [error], [status_code] and [details]. *)
Lemma flask_relays_error_body_unwrapped :
  requests.status_code Demo.forbidden ≠ 200 ∧
  result (Flask.create_conversation Demo.loads_bytes (Demo.answers Demo.forbidden)
            Demo.cfg (Demo.flask_request "{}"))
    = Responds {| status := 403; sent_headers := cors_headers; body := raw "Forbidden" |} ∧
  raw "Forbidden" ≠
    json_dumps (PyDict
      {[ "error" := PyStr "Tavus API error";
         "status_code" := PyInt 403;
         "details" := PyStr "Forbidden" ]}).
Proof.
  split; [vm_compute; discriminate|].
  split; [vm_compute; reflexivity|discriminate].
Qed.

(** C5, amended. For every upstream answer with a status other than 200,
    either variant responds with that status; the body of the
    [http.server] variant is the JSON object with [error], [status_code]
    and [details] (the upstream text), the body of the Flask variant is
    the upstream text as it is. *)
Theorem upstream_error_is_relayed (cfg : secrets) :
  (∀ int read_raises decode loads post self c answer,
     calls (Server.do_POST int read_raises decode loads post cfg self) = [c] →
     post c = inr answer →
     requests.status_code answer ≠ 200 →
     ∃ r, result (Server.do_POST int read_raises decode loads post cfg self) = Responds r ∧
          status r = requests.status_code answer ∧
          body r = json_dumps (PyDict
            {[ "error" := PyStr "Tavus API error";
               "status_code" := PyInt (requests.status_code answer);
               "details" := PyStr (requests.text answer) ]})) ∧
  (∀ bloads post request c answer,
     calls (Flask.create_conversation bloads post cfg request) = [c] →
     post c = inr answer →
     requests.status_code answer ≠ 200 →
     ∃ r, result (Flask.create_conversation bloads post cfg request) = Responds r ∧
          status r = requests.status_code answer ∧
          body r = raw (requests.text answer)).
Proof.
  split.
  - intros int read_raises decode loads post self c answer Hc Hpost Hs.
    rewrite (server_result _ _ _ _ _ _ _ _ Hc), Hpost, (translate_not_200 _ Hs).
    eexists. split; [reflexivity|]. split; reflexivity.
  - intros bloads post request c answer Hc Hpost _.
    rewrite (flask_result _ _ _ _ _ Hc), Hpost.
    eexists. split; [reflexivity|]. split; reflexivity.
Qed.

Lemma upstream_error_is_relayed_witness :
  requests.status_code Demo.forbidden ≠ 200 ∧
  calls (Server.do_POST Demo.int Demo.read_raises Demo.decode Demo.loads (Demo.answers
      Demo.forbidden)
           Demo.cfg Demo.empty_request) = [Server.call Demo.cfg Demo.bare_payload] ∧
  calls (Flask.create_conversation Demo.loads_bytes (Demo.answers Demo.forbidden)
           Demo.cfg (Demo.flask_request "{}")) = [Flask.call Demo.cfg Demo.bare_payload] ∧
  (∃ r, result (Server.do_POST Demo.int Demo.read_raises Demo.decode Demo.loads
                  (Demo.answers Demo.forbidden) Demo.cfg Demo.empty_request) = Responds r ∧
        status r = 403 ∧
        body r = json_dumps (PyDict
          {[ "error" := PyStr "Tavus API error";
             "status_code" := PyInt 403;
             "details" := PyStr "Forbidden" ]})) ∧
  (∃ r, result (Flask.create_conversation Demo.loads_bytes (Demo.answers Demo.forbidden)
                  Demo.cfg (Demo.flask_request "{}")) = Responds r ∧
        status r = 403 ∧
        body r = raw "Forbidden").
Proof.
  destruct (upstream_error_is_relayed Demo.cfg) as [S F].
  split; [vm_compute; discriminate|].
  split; [vm_compute; reflexivity|]. split; [vm_compute; reflexivity|]. split.
  - apply (S Demo.int Demo.read_raises Demo.decode Demo.loads (Demo.answers Demo.forbidden)
             Demo.empty_request (Server.call Demo.cfg Demo.bare_payload) Demo.forbidden).
    + vm_compute; reflexivity.
    + reflexivity.
    + vm_compute; discriminate.
  - apply (F Demo.loads_bytes (Demo.answers Demo.forbidden) (Demo.flask_request "{}")
             (Flask.call Demo.cfg Demo.bare_payload) Demo.forbidden).
    + vm_compute; reflexivity.
    + reflexivity.
    + vm_compute; discriminate.
Defined.

(** ** Upstream answers with status 200 *)

Lemma flask_relays bloads post cfg (request : Flask.request) (c : requests.Call)
    (answer : requests.Response) :
  calls (Flask.create_conversation bloads post cfg request) = [c] →
  post c = inr answer →
  result (Flask.create_conversation bloads post cfg request) =
    Responds
      {| status := requests.status_code answer;
         sent_headers := cors_headers;
         body := raw (requests.text answer) |}.
Proof. intros Hc Hpost. rewrite (flask_result _ _ _ _ _ Hc), Hpost. reflexivity. Qed.

(** C6 as stated fails on the Flask variant: a 200 whose object has no
    [conversation_url] is relayed as a 200 with the upstream text. *)
Lemma flask_relays_body_without_url :
  requests.status_code Demo.id_only = 200 ∧
  requests.json_ Demo.id_only = inr (PyDict {[ "conversation_id" := PyStr "c1" ]}) ∧
  ({[ "conversation_id" := PyStr "c1" ]} : gmap string value) !! "conversation_url" = None ∧
  result (Flask.create_conversation Demo.loads_bytes (Demo.answers Demo.id_only)
            Demo.cfg (Demo.flask_request "{}"))
    = Responds
        {| status := 200;
           sent_headers := cors_headers;
           body := raw (requests.text Demo.id_only) |}.
Proof. repeat split; vm_compute; reflexivity. Qed.

(** C6, amended. In the [http.server] variant a 200 whose parsed body is
    an object without [conversation_url] is answered 500 with the JSON
    object of [error] and [details] (the parsed body); the Flask variant
    relays the 200 and the upstream text. *)
Theorem missing_conversation_url (cfg : secrets) :
  (∀ int read_raises decode loads post self c answer data,
     calls (Server.do_POST int read_raises decode loads post cfg self) = [c] →
     post c = inr answer →
     requests.status_code answer = 200 →
     requests.json_ answer = inr (PyDict data) →
     data !! "conversation_url" = None →
     ∃ r, result (Server.do_POST int read_raises decode loads post cfg self) = Responds r ∧
          status r = 500 ∧
          body r = json_dumps (PyDict
            {[ "error" := PyStr "Invalid response from Tavus API";
               "details" := PyDict data ]})) ∧
  (∀ bloads post request c answer,
     calls (Flask.create_conversation bloads post cfg request) = [c] →
     post c = inr answer →
     requests.status_code answer = 200 →
     ∃ r, result (Flask.create_conversation bloads post cfg request) = Responds r ∧
          status r = 200 ∧
          body r = raw (requests.text answer)).
Proof.
  split.
  - intros int read_raises decode loads post self c answer data Hc Hpost Hs Hj Hu.
    rewrite (server_result _ _ _ _ _ _ _ _ Hc), Hpost, (translate_200_object _ _ Hs Hj), Hu.
    eexists. split; [reflexivity|]. split; reflexivity.
  - intros bloads post request c answer Hc Hpost Hs.
    rewrite (flask_relays _ _ _ _ _ _ Hc Hpost).
    eexists. split; [reflexivity|]. split; [exact Hs|reflexivity].
Qed.

Lemma missing_conversation_url_witness :
  calls (Server.do_POST Demo.int Demo.read_raises Demo.decode Demo.loads (Demo.answers
      Demo.id_only)
           Demo.cfg Demo.empty_request) = [Server.call Demo.cfg Demo.bare_payload] ∧
  calls (Flask.create_conversation Demo.loads_bytes (Demo.answers Demo.id_only)
           Demo.cfg (Demo.flask_request "{}")) = [Flask.call Demo.cfg Demo.bare_payload] ∧
  (∃ r, result (Server.do_POST Demo.int Demo.read_raises Demo.decode Demo.loads
                  (Demo.answers Demo.id_only) Demo.cfg Demo.empty_request) = Responds r ∧
        status r = 500 ∧
        body r = json_dumps (PyDict
          {[ "error" := PyStr "Invalid response from Tavus API";
             "details" := PyDict {[ "conversation_id" := PyStr "c1" ]} ]})) ∧
  (∃ r, result (Flask.create_conversation Demo.loads_bytes (Demo.answers Demo.id_only)
                  Demo.cfg (Demo.flask_request "{}")) = Responds r ∧
        status r = 200 ∧
        body r = raw (requests.text Demo.id_only)).
Proof.
  destruct (missing_conversation_url Demo.cfg) as [S F].
  split; [vm_compute; reflexivity|]. split; [vm_compute; reflexivity|]. split.
  - apply (S Demo.int Demo.read_raises Demo.decode Demo.loads (Demo.answers Demo.id_only)
             Demo.empty_request (Server.call Demo.cfg Demo.bare_payload) Demo.id_only).
    + vm_compute; reflexivity.
    + reflexivity.
    + reflexivity.
    + reflexivity.
    + vm_compute; reflexivity.
  - apply (F Demo.loads_bytes (Demo.answers Demo.id_only) (Demo.flask_request "{}")
             (Flask.call Demo.cfg Demo.bare_payload) Demo.id_only).
    + vm_compute; reflexivity.
    + reflexivity.
    + reflexivity.
Defined.

(** A 200 whose body is JSON but no object is outside both: [data.get]
    raises and no response is written. *)
Example array_body_raises :
  result (Server.do_POST Demo.int Demo.read_raises Demo.decode Demo.loads (Demo.answers
      Demo.empty_array)
            Demo.cfg Demo.empty_request)
  = Raises AttributeError.
Proof. vm_compute. reflexivity. Qed.

(** C7 as stated fails twice. In the [http.server] variant a 200 whose
    [conversation_url] is the empty string is answered 500; in the Flask
    variant a 200 whose object has a third member is relayed with that
    member, as the upstream text. *)
Lemma success_body_not_always_extracted :
  requests.json_ Demo.empty_url
    = inr (PyDict {[ "conversation_url" := PyStr ""; "conversation_id" := PyStr "c1" ]}) ∧
  status_of (result (Server.do_POST Demo.int Demo.read_raises Demo.decode Demo.loads
                       (Demo.answers Demo.empty_url) Demo.cfg Demo.empty_request))
    = Some 500 ∧
  requests.json_ Demo.created_with_status
    = inr (PyDict {[ "conversation_url" := PyStr "https://x";
                      "conversation_id" := PyStr "c1";
                      "status" := PyStr "active" ]}) ∧
  result (Flask.create_conversation Demo.loads_bytes
            (Demo.answers Demo.created_with_status) Demo.cfg (Demo.flask_request "{}"))
    = Responds
        {| status := 200;
           sent_headers := cors_headers;
           body := raw (requests.text Demo.created_with_status) |} ∧
  raw (requests.text Demo.created_with_status) ≠
    json_dumps (PyDict
      {[ "conversation_url" := PyStr "https://x"; "conversation_id" := PyStr "c1" ]}).
Proof.
  do 4 (split; [vm_compute; reflexivity|]). discriminate.
Qed.

(** C7, amended. In the [http.server] variant a 200 whose parsed body is
    an object with a truthy (not empty, not null) [conversation_url] and
    a [conversation_id] is answered 200 with the JSON object of exactly
    these two members; the Flask variant relays the 200 and the upstream
    text as it is. *)
Theorem success_body (cfg : secrets) :
  (∀ int read_raises decode loads post self c answer data u i,
     calls (Server.do_POST int read_raises decode loads post cfg self) = [c] →
     post c = inr answer →
     requests.status_code answer = 200 →
     requests.json_ answer = inr (PyDict data) →
     data !! "conversation_url" = Some u →
     truthy u = true →
     data !! "conversation_id" = Some i →
     ∃ r, result (Server.do_POST int read_raises decode loads post cfg self) = Responds r ∧
          status r = 200 ∧
          body r = json_dumps (PyDict
            {[ "conversation_url" := u; "conversation_id" := i ]})) ∧
  (∀ bloads post request c answer,
     calls (Flask.create_conversation bloads post cfg request) = [c] →
     post c = inr answer →
     requests.status_code answer = 200 →
     ∃ r, result (Flask.create_conversation bloads post cfg request) = Responds r ∧
          status r = 200 ∧
          body r = raw (requests.text answer)).
Proof.
  split.
  - intros int read_raises decode loads post self c answer data u i Hc Hpost Hs Hj Hu Ht Hi.
    rewrite (server_result _ _ _ _ _ _ _ _ Hc), Hpost, (translate_200_object _ _ Hs Hj).
    rewrite Hu, Hi. cbn [from_option id]. rewrite Ht.
    eexists. split; [reflexivity|]. split; reflexivity.
  - intros bloads post request c answer Hc Hpost Hs.
    rewrite (flask_relays _ _ _ _ _ _ Hc Hpost).
    eexists. split; [reflexivity|]. split; [exact Hs|reflexivity].
Qed.

Lemma success_body_witness :
  calls (Server.do_POST Demo.int Demo.read_raises Demo.decode Demo.loads (Demo.answers
      Demo.created)
           Demo.cfg Demo.empty_request) = [Server.call Demo.cfg Demo.bare_payload] ∧
  calls (Flask.create_conversation Demo.loads_bytes (Demo.answers Demo.created)
           Demo.cfg (Demo.flask_request "{}")) = [Flask.call Demo.cfg Demo.bare_payload] ∧
  (∃ r, result (Server.do_POST Demo.int Demo.read_raises Demo.decode Demo.loads
                  (Demo.answers Demo.created) Demo.cfg Demo.empty_request) = Responds r ∧
        status r = 200 ∧
        body r = json_dumps (PyDict
          {[ "conversation_url" := PyStr "https://x";
             "conversation_id" := PyStr "c1" ]})) ∧
  (∃ r, result (Flask.create_conversation Demo.loads_bytes (Demo.answers Demo.created)
                  Demo.cfg (Demo.flask_request "{}")) = Responds r ∧
        status r = 200 ∧
        body r = raw (requests.text Demo.created)).
Proof.
  destruct (success_body Demo.cfg) as [S F].
  split; [vm_compute; reflexivity|]. split; [vm_compute; reflexivity|]. split.
  - apply (S Demo.int Demo.read_raises Demo.decode Demo.loads (Demo.answers Demo.created)
             Demo.empty_request (Server.call Demo.cfg Demo.bare_payload) Demo.created
             {[ "conversation_url" := PyStr "https://x"; "conversation_id" := PyStr "c1"
                 ]}).
    + vm_compute; reflexivity.
    + reflexivity.
    + reflexivity.
    + reflexivity.
    + vm_compute; reflexivity.
    + reflexivity.
    + vm_compute; reflexivity.
  - apply (F Demo.loads_bytes (Demo.answers Demo.created) (Demo.flask_request "{}")
             (Flask.call Demo.cfg Demo.bare_payload) Demo.created).
    + vm_compute; reflexivity.
    + reflexivity.
    + reflexivity.
Defined.

(** C10 as stated fails: a 200 whose object has [conversation_url], null,
    and no [conversation_id] is answered 500, so it is not only the
    absence of [conversation_url] that takes the 500 path. *)
Lemma null_url_without_id_is_500 :
  requests.status_code Demo.null_url = 200 ∧
  requests.json_ Demo.null_url = inr (PyDict {[ "conversation_url" := PyNone ]}) ∧
  ({[ "conversation_url" := PyNone ]} : gmap string value) !! "conversation_url"
    = Some PyNone ∧
  ({[ "conversation_url" := PyNone ]} : gmap string value) !! "conversation_id" = None ∧
  status_of (result (Server.do_POST Demo.int Demo.read_raises Demo.decode Demo.loads
                       (Demo.answers Demo.null_url) Demo.cfg Demo.empty_request))
    = Some 500.
Proof. repeat split; vm_compute; reflexivity. Qed.

(** C10, amended. In the [http.server] variant a 200 whose parsed body is
    an object with a truthy (not empty, not null) [conversation_url] and
    no [conversation_id] is answered 200, and the body has the key
    [conversation_id] with the value null. *)
Theorem missing_conversation_id_is_null int read_raises decode loads post (cfg : secrets)
    (self : Server.request) (c : requests.Call) (answer : requests.Response)
    (data : gmap string value) (u : value) :
  calls (Server.do_POST int read_raises decode loads post cfg self) = [c] →
  post c = inr answer →
  requests.status_code answer = 200 →
  requests.json_ answer = inr (PyDict data) →
  data !! "conversation_url" = Some u →
  truthy u = true →
  data !! "conversation_id" = None →
  ∃ r, result (Server.do_POST int read_raises decode loads post cfg self) = Responds r ∧
       status r = 200 ∧
       body r = json_dumps (PyDict
         {[ "conversation_url" := u; "conversation_id" := PyNone ]}).
Proof.
  intros Hc Hpost Hs Hj Hu Ht Hi.
  rewrite (server_result _ _ _ _ _ _ _ _ Hc), Hpost, (translate_200_object _ _ Hs Hj).
  rewrite Hu, Hi. cbn [from_option id]. rewrite Ht.
  eexists. split; [reflexivity|]. split; reflexivity.
Qed.

Lemma missing_conversation_id_is_null_witness :
  ∃ r, result (Server.do_POST Demo.int Demo.read_raises Demo.decode Demo.loads
                 (Demo.answers Demo.created_without_id) Demo.cfg Demo.empty_request)
         = Responds r ∧
       status r = 200 ∧
       body r = json_dumps (PyDict
         {[ "conversation_url" := PyStr "https://x"; "conversation_id" := PyNone ]}).
Proof.
  apply (missing_conversation_id_is_null Demo.int Demo.read_raises Demo.decode Demo.loads
           (Demo.answers Demo.created_without_id) Demo.cfg Demo.empty_request
           (Server.call Demo.cfg Demo.bare_payload) Demo.created_without_id
           {[ "conversation_url" := PyStr "https://x" ]}).
  - vm_compute; reflexivity.
  - reflexivity.
  - reflexivity.
  - reflexivity.
  - vm_compute; reflexivity.
  - reflexivity.
  - vm_compute; reflexivity.
Defined.

(** * More about the two handlers *)

(** ** The order of the merge loop *)

Lemma merge_key_error (extra : value) (key : string) (e : exception) :
  merge_key extra key (inl e) = inl e.
Proof. reflexivity. Qed.

(** Two rounds of the loop commute, whatever the body parsed to. *)
Lemma merge_key_comm (extra : value) (k1 k2 : string)
    (acc : exception + gmap string value) :
  merge_key extra k1 (merge_key extra k2 acc) =
  merge_key extra k2 (merge_key extra k1 acc).
Proof.
  destruct acc as [e|p]; [reflexivity|].
  destruct extra as [| b | n | x | s | l | d].
  1-4: reflexivity.
  - unfold merge_key, contains, getitem.
    destruct (str_contains s k1), (str_contains s k2); reflexivity.
  - unfold merge_key, contains, getitem.
    destruct (existsb _ l), (existsb _ l); reflexivity.
  - rewrite (merge_key_dict d p k2), (merge_key_dict d p k1), !merge_key_dict.
    destruct (decide (k1 = k2)) as [->|Hne]; [reflexivity|].
    destruct (d !! k1) as [v1|], (d !! k2) as [v2|]; try reflexivity.
    f_equal. apply insert_insert_ne. exact Hne.
Qed.

Lemma foldr_merge_perm (extra : value) (b : exception + gmap string value)
    (l1 l2 : list string) :
  l1 ≡ₚ l2 → foldr (merge_key extra) b l1 = foldr (merge_key extra) b l2.
Proof.
  induction 1 as [|x l1 l2 _ IH|x y l|l1 l2 l3 _ IH1 _ IH2]; cbn [foldr].
  - reflexivity.
  - rewrite IH. reflexivity.
  - apply merge_key_comm.
  - rewrite IH1. exact IH2.
Qed.

Lemma foldl_merge_foldr (extra : value) (b : exception + gmap string value)
    (l : list string) :
  foldl (λ acc k, merge_key extra k acc) b l = foldr (merge_key extra) b (rev l).
Proof.
  induction l as [|x l IH] using rev_ind; [reflexivity|].
  rewrite foldl_app, rev_unit. cbn [foldl foldr]. rewrite IH. reflexivity.
Qed.

Lemma allow_list_NoDup : NoDup allow_list.
Proof. refine (bool_decide_unpack _ _). vm_compute. exact I. Qed.

Lemma allowed_keys_elements : elements Server.allowed_keys ≡ₚ allow_list.
Proof.
  apply NoDup_Permutation.
  - apply NoDup_elements.
  - exact allow_list_NoDup.
  - intros k. rewrite elem_of_elements. apply allowed_keys_list.
Qed.

Lemma merge_any_order (cfg : secrets) (extra : value) (order : list string) :
  order ≡ₚ allow_list →
  foldl (λ acc k, merge_key extra k acc) (inr (initial_payload cfg)) order
  = Server.build_payload cfg extra.
Proof.
  intros Hperm. rewrite foldl_merge_foldr, server_build_payload_eq.
  apply foldr_merge_perm.
  rewrite <- Permutation_rev, Hperm. symmetry. exact allowed_keys_elements.
Qed.

(** X1. The set [allowed_keys] has no order of its own: in whatever order
    the loop of [do_POST] visits the five names, it builds the payload
    (or raises the error) that [build_payload] gives. *)
Theorem merge_order_irrelevant (cfg : secrets) (extra : value) (order : list string) :
  order ≡ₚ allow_list →
  foldl (λ acc k, merge_key extra k acc) (inr (initial_payload cfg)) order
  = Server.build_payload cfg extra.
Proof. exact (merge_any_order cfg extra order). Qed.

Lemma merge_order_irrelevant_witness :
  rev allow_list ≡ₚ allow_list ∧
  foldl (λ acc k, merge_key (PyDict Demo.named) k acc)
    (inr (initial_payload Demo.cfg)) (rev allow_list)
  = Server.build_payload Demo.cfg (PyDict Demo.named).
Proof.
  split; [symmetry; apply Permutation_rev|].
  apply merge_order_irrelevant. symmetry. apply Permutation_rev.
Defined.

(** The two variants build the same payload from the same parsed body. *)
Lemma variants_build_same_payload (cfg : secrets) (extra : value) :
  Flask.build_payload cfg extra = Server.build_payload cfg extra.
Proof. rewrite flask_build_payload_eq. by apply merge_any_order. Qed.

Lemma variants_same_target (cfg : secrets) (p : gmap string value) :
  target (Server.call cfg p) = target (Flask.call cfg p).
Proof.
  unfold target, Server.call, Flask.call. cbn [requests.url requests.headers requests.json].
  f_equal.
Qed.

(** X2. When the two variants are handed the same parsed body under the
    same secrets, they issue the same calls but for the timeout: the same
    URL, the same two header fields and the same payload, or both issue
    none. *)
Theorem variants_issue_same_call int read_raises decode loads bloads post (cfg : secrets)
    (self : Server.request) (request : Flask.request) (extra : value) :
  Server.extra_params int read_raises decode loads self = inr extra →
  Flask.extra bloads request = inr extra →
  target <$> calls (Server.do_POST int read_raises decode loads post cfg self) =
  target <$> calls (Flask.create_conversation bloads post cfg request).
Proof.
  intros He Hf. unfold Server.do_POST, Flask.create_conversation.
  rewrite He, Hf, variants_build_same_payload.
  destruct (Server.build_payload cfg extra) as [e|p]; cbn [calls fmap list_fmap].
  - reflexivity.
  - rewrite variants_same_target. reflexivity.
Qed.

Lemma variants_issue_same_call_witness :
  Server.extra_params Demo.int Demo.read_raises Demo.decode Demo.loads Demo.named_request
    = inr (PyDict Demo.named) ∧
  Flask.extra Demo.loads_bytes (Demo.flask_request Demo.named_text)
    = inr (PyDict Demo.named) ∧
  target <$> calls (Server.do_POST Demo.int Demo.read_raises Demo.decode Demo.loads
                      (Demo.answers Demo.created) Demo.cfg Demo.named_request) =
  target <$> calls (Flask.create_conversation Demo.loads_bytes
                      (Demo.answers Demo.created) Demo.cfg
                      (Demo.flask_request Demo.named_text)).
Proof.
  split; [vm_compute; reflexivity|]. split; [vm_compute; reflexivity|].
  apply (variants_issue_same_call Demo.int Demo.read_raises Demo.decode Demo.loads
      Demo.loads_bytes
           (Demo.answers Demo.created) Demo.cfg Demo.named_request
           (Demo.flask_request Demo.named_text) (PyDict Demo.named));
    vm_compute; reflexivity.
Defined.

(** ** Bodies that are JSON but no object *)

Lemma merge_key_non_dict (extra : value) (key : string) (p : gmap string value) :
  is_dict extra = false →
  merge_key extra key (inr p) = if hits extra key then inl TypeError else inr p.
Proof.
  destruct extra as [| b | n | x | s | l | d]; intros Hd;
    try reflexivity; try discriminate Hd.
  - unfold merge_key, hits, contains, getitem. destruct (str_contains s key); reflexivity.
  - unfold merge_key, hits, contains, getitem. destruct (existsb _ l); reflexivity.
Qed.

Lemma foldr_merge_non_dict (extra : value) (p : gmap string value) (l : list string) :
  is_dict extra = false →
  foldr (merge_key extra) (inr p) l =
    if existsb (hits extra) l then inl TypeError else inr p.
Proof.
  intros Hd. induction l as [|k l IH]; [reflexivity|].
  cbn [foldr existsb]. rewrite IH.
  destruct (existsb (hits extra) l).
  - rewrite merge_key_error, orb_true_r. reflexivity.
  - rewrite (merge_key_non_dict _ _ _ Hd), orb_false_r. reflexivity.
Qed.

Lemma server_build_non_dict (cfg : secrets) (extra : value) :
  is_dict extra = false →
  Server.build_payload cfg extra =
    if existsb (hits extra) allow_list then inl TypeError
    else inr (initial_payload cfg).
Proof.
  intros Hd. rewrite server_build_payload_eq.
  rewrite (foldr_merge_perm _ _ _ _ allowed_keys_elements).
  apply foldr_merge_non_dict. exact Hd.
Qed.

Lemma server_build_empty (cfg : secrets) :
  Server.build_payload cfg (PyDict ∅) = inr (initial_payload cfg).
Proof.
  rewrite server_build_payload_eq.
  induction (elements Server.allowed_keys) as [|k l IH]; [reflexivity|].
  cbn [foldr]. rewrite IH, merge_key_dict, lookup_empty. reflexivity.
Qed.

(** X3. A body that parses to a list or a text (or, in the Flask variant,
    to anything truthy that is no object) is never forwarded, not even in
    part. If one of the five names is an element of the list, or occurs
    in the text, the handler raises [TypeError] before any call and
    writes no response; otherwise it issues its call with the payload it
    started with. *)
Theorem non_object_body_is_not_forwarded (cfg : secrets) (extra : value) :
  is_dict extra = false →
  (∀ int read_raises decode loads post self,
     Server.extra_params int read_raises decode loads self = inr extra →
     if existsb (hits extra) allow_list
     then Server.do_POST int read_raises decode loads post cfg self
          = {| calls := []; result := Raises TypeError |}
     else calls (Server.do_POST int read_raises decode loads post cfg self)
          = [Server.call cfg (initial_payload cfg)]) ∧
  (∀ bloads post request,
     Flask.extra bloads request = inr extra →
     if existsb (hits extra) allow_list
     then Flask.create_conversation bloads post cfg request
          = {| calls := []; result := Raises TypeError |}
     else calls (Flask.create_conversation bloads post cfg request)
          = [Flask.call cfg (initial_payload cfg)]).
Proof.
  intros Hd. split.
  - intros int read_raises decode loads post self He. unfold Server.do_POST.
    rewrite He, (server_build_non_dict cfg extra Hd).
    destruct (existsb (hits extra) allow_list); reflexivity.
  - intros bloads post request He. unfold Flask.create_conversation.
    rewrite He, variants_build_same_payload, (server_build_non_dict cfg extra Hd).
    destruct (existsb (hits extra) allow_list); reflexivity.
Qed.

Lemma non_object_body_is_not_forwarded_witness :
  is_dict (PyList [PyStr "audio_only"]) = false ∧
  Server.extra_params Demo.int Demo.read_raises Demo.decode Demo.loads_array
      Demo.array_request
    = inr (PyList [PyStr "audio_only"]) ∧
  existsb (hits (PyList [PyStr "audio_only"])) allow_list = true ∧
  Server.do_POST Demo.int Demo.read_raises Demo.decode Demo.loads_array (Demo.answers
      Demo.created)
    Demo.cfg Demo.array_request
  = {| calls := []; result := Raises TypeError |}.
Proof.
  split; [reflexivity|]. split; [vm_compute; reflexivity|].
  split; [vm_compute; reflexivity|].
  destruct (non_object_body_is_not_forwarded Demo.cfg (PyList [PyStr "audio_only"])
              eq_refl) as [S _].
  pose proof (S Demo.int Demo.read_raises Demo.decode Demo.loads_array (Demo.answers
      Demo.created)
                Demo.array_request) as H.
  apply H. vm_compute; reflexivity.
Defined.

Lemma scalar_hits (extra : value) :
  is_scalar extra = true →
  is_dict extra = false ∧ existsb (hits extra) allow_list = true.
Proof.
  destruct extra; intros H; try discriminate H; split; reflexivity.
Qed.

(** X4. A body that parses to [null], a boolean or a number makes
    [do_POST] raise [TypeError]: no call is issued and no response is
    written, not even a 400. The Flask view does the same for the values
    that [or] lets through, [true] and the numbers other than zero. *)
Theorem scalar_body_raises (extra : value) :
  is_scalar extra = true →
  (∀ int read_raises decode loads post cfg self,
     Server.extra_params int read_raises decode loads self = inr extra →
     Server.do_POST int read_raises decode loads post cfg self
     = {| calls := []; result := Raises TypeError |}) ∧
  (∀ bloads post cfg request,
     Flask.get_json bloads request = inr extra →
     truthy extra = true →
     Flask.create_conversation bloads post cfg request
     = {| calls := []; result := Raises TypeError |}).
Proof.
  intros Hs. destruct (scalar_hits extra Hs) as [Hd Hh]. split.
  - intros int read_raises decode loads post cfg self He. unfold Server.do_POST.
    rewrite He, (server_build_non_dict cfg extra Hd), Hh. reflexivity.
  - intros bloads post cfg request He Ht.
    unfold Flask.create_conversation, Flask.extra, Flask.or_empty. rewrite He, Ht.
    rewrite variants_build_same_payload, (server_build_non_dict cfg extra Hd), Hh.
    reflexivity.
Qed.

Lemma scalar_body_raises_witness :
  is_scalar (PyInt 5) = true ∧
  Server.extra_params Demo.int Demo.read_raises Demo.decode Demo.loads_five
      Demo.five_request
    = inr (PyInt 5) ∧
  Server.do_POST Demo.int Demo.read_raises Demo.decode Demo.loads_five (Demo.answers
      Demo.created)
    Demo.cfg Demo.five_request
  = {| calls := []; result := Raises TypeError |}.
Proof.
  split; [reflexivity|]. split; [vm_compute; reflexivity|].
  destruct (scalar_body_raises (PyInt 5) eq_refl) as [S _].
  apply S. vm_compute; reflexivity.
Defined.

Lemma flask_build_empty (cfg : secrets) :
  Flask.build_payload cfg (PyDict ∅) = inr (initial_payload cfg).
Proof. rewrite variants_build_same_payload. apply server_build_empty. Qed.

(** X5. Whenever [request.get_json(silent=True)] is falsy - the body does
    not parse, the request declares no JSON media type, or the body is
    [null], [false], zero, an empty text, an empty list or an empty
    object - the Flask view goes on with an empty object: it issues its
    call with [persona_id] and, when configured, [replica_id] only. *)
Theorem flask_falsy_body_is_empty bloads post (cfg : secrets) (request : Flask.request)
    (x : value) :
  Flask.get_json bloads request = inr x →
  truthy x = false →
  calls (Flask.create_conversation bloads post cfg request)
  = [Flask.call cfg (initial_payload cfg)].
Proof.
  intros Hj Ht. unfold Flask.create_conversation, Flask.extra, Flask.or_empty.
  rewrite Hj, Ht, flask_build_empty. reflexivity.
Qed.

Lemma flask_falsy_body_is_empty_witness :
  Flask.get_json Demo.loads_bytes Demo.undeclared_request = inr PyNone ∧
  truthy PyNone = false ∧
  Demo.loads_bytes (Flask.data Demo.undeclared_request) = inr (PyDict Demo.named) ∧
  calls (Flask.create_conversation Demo.loads_bytes (Demo.answers Demo.created)
           Demo.cfg Demo.undeclared_request)
  = [Flask.call Demo.cfg (initial_payload Demo.cfg)].
Proof.
  split; [reflexivity|]. split; [reflexivity|]. split; [vm_compute; reflexivity|].
  apply (flask_falsy_body_is_empty Demo.loads_bytes (Demo.answers Demo.created)
           Demo.cfg Demo.undeclared_request PyNone); reflexivity.
Defined.

(** ** What [do_POST] reads of the request *)

(** X6. [do_POST] reads [Content-Length] bytes of the body and no more:
    two requests with the same path and headers whose bodies agree on
    that many bytes get the same run, whatever follows. With no
    [Content-Length], or one that is zero or negative, nothing of the
    body is read. *)
Theorem bytes_after_content_length_unread int read_raises decode loads post (cfg : secrets)
    (self self' : Server.request) (n : Z) :
  Server.path self' = Server.path self →
  Server.headers self' = Server.headers self →
  Server.content_length int self = inr n →
  take (Z.to_nat n) (Server.rfile self') = take (Z.to_nat n) (Server.rfile self) →
  Server.do_POST int read_raises decode loads post cfg self' =
  Server.do_POST int read_raises decode loads post cfg self.
Proof.
  intros Hp Hh Hn Ht.
  assert (Server.extra_params int read_raises decode loads self' =
          Server.extra_params int read_raises decode loads self) as He.
  { unfold Server.extra_params. rewrite Hp.
    destruct (negb (Server.path self =? "/create-conversation")%string); [reflexivity|].
    assert (Server.content_length int self' = inr n) as Hn'.
    { rewrite <- Hn. unfold Server.content_length. rewrite Hh. reflexivity. }
    rewrite Hn, Hn'. unfold Server.read_body. rewrite Ht. reflexivity. }
  unfold Server.do_POST. rewrite He. reflexivity.
Qed.

Lemma bytes_after_content_length_unread_witness :
  Server.content_length Demo.int Demo.short_request = inr 2 ∧
  Server.rfile Demo.padded_request ≠ Server.rfile Demo.short_request ∧
  Server.do_POST Demo.int Demo.read_raises Demo.decode Demo.loads (Demo.answers
      Demo.created) Demo.cfg
    Demo.padded_request =
  Server.do_POST Demo.int Demo.read_raises Demo.decode Demo.loads (Demo.answers
      Demo.created) Demo.cfg
    Demo.short_request.
Proof.
  split; [vm_compute; reflexivity|]. split; [vm_compute; discriminate|].
  apply (bytes_after_content_length_unread Demo.int Demo.read_raises Demo.decode Demo.loads
           (Demo.answers Demo.created) Demo.cfg Demo.short_request Demo.padded_request 2);
    vm_compute; reflexivity.
Defined.

(** X7. A [Content-Length] that [int] rejects makes [do_POST] raise
    [ValueError] on the handled path: nothing is read, no call is issued
    and no response is written. *)
Theorem content_length_not_a_number int read_raises decode loads post (cfg : secrets)
    (self : Server.request) (s : string) :
  Server.path self = "/create-conversation" →
  Server.headers_get (Server.headers self) "Content-Length" = Some s →
  int s = None →
  Server.do_POST int read_raises decode loads post cfg self
  = {| calls := []; result := Raises ValueError |}.
Proof.
  intros Hp Hh Hi. unfold Server.do_POST, Server.extra_params, Server.content_length.
  rewrite Hp, String.eqb_refl, Hh, Hi. reflexivity.
Qed.

Lemma content_length_not_a_number_witness :
  Server.headers_get (Server.headers Demo.bad_length_request) "Content-Length"
    = Some "two"%string ∧
  Demo.int "two" = None ∧
  Server.do_POST Demo.int Demo.read_raises Demo.decode Demo.loads (Demo.answers
      Demo.created) Demo.cfg
    Demo.bad_length_request
  = {| calls := []; result := Raises ValueError |}.
Proof.
  split; [vm_compute; reflexivity|]. split; [vm_compute; reflexivity|].
  apply (content_length_not_a_number Demo.int Demo.read_raises Demo.decode Demo.loads
           (Demo.answers Demo.created) Demo.cfg Demo.bad_length_request "two"%string);
    vm_compute; reflexivity.
Defined.

(** ** Every way a run of [do_POST] can end *)

Lemma server_build_error (cfg : secrets) (extra : value) (e : exception) :
  Server.build_payload cfg extra = inl e → e = TypeError.
Proof.
  intros H. destruct extra as [| b | n | x | s | l | d].
  1-6: rewrite server_build_non_dict in H by reflexivity;
       destruct (existsb _ allow_list); [injection H as <-; reflexivity|discriminate H].
  destruct (server_payload cfg d) as (p & Hp & _). rewrite Hp in H. discriminate H.
Qed.

Lemma extra_params_raises int read_raises decode loads (self : Server.request)
    (e : exception) :
  Server.extra_params int read_raises decode loads self = inl (Raises e) →
  e = ValueError ∨
  (∃ n, read_raises n = Some e) ∨
  e = UnicodeDecodeError ∨
  (∃ s, loads s = inl e ∧ is_json_decode_error e = false).
Proof.
  unfold Server.extra_params.
  destruct (negb (Server.path self =? "/create-conversation")%string); [discriminate 1|].
  destruct (Server.content_length int self) as [e'|n] eqn:Hn.
  { intros [= <-]. left. unfold Server.content_length in Hn.
    destruct (Server.headers_get _ _) as [s|]; [|discriminate Hn].
    destruct (int s); [discriminate Hn|]. injection Hn as <-. reflexivity. }
  destruct (Server.read_body read_raises self n) as [e'|body] eqn:Hr.
  { intros [= <-]. right. left. exists n. unfold Server.read_body in Hr.
    destruct (0 <? n); [|discriminate Hr].
    destruct (read_raises n) as [e''|]; [|discriminate Hr].
    injection Hr as <-. reflexivity. }
  destruct body as [|b bs]; [discriminate 1|].
  destruct (decode (b :: bs)) as [s|]; [|intros [= <-]; right; right; left; reflexivity].
  destruct (loads s) as [e'|v] eqn:Hl; [|discriminate 1].
  destruct (is_json_decode_error e') eqn:Hj; [discriminate 1|].
  intros [= <-]. right. right. right. exists s. split; [exact Hl|exact Hj].
Qed.

Lemma translate_responds (answer : requests.Response) (r : response) :
  Server.translate answer = Responds r →
  (requests.status_code answer ≠ 200 ∧ status r = requests.status_code answer) ∨
  (requests.status_code answer = 200 ∧
   ∃ data, requests.json_ answer = inr (PyDict data) ∧
     ((truthy (default PyNone (data !! "conversation_url")) = false ∧ status r = 500) ∨
      (truthy (default PyNone (data !! "conversation_url")) = true ∧
       r = {| status := 200;
              sent_headers :=
                [("Access-Control-Allow-Origin", "*");
                 ("Access-Control-Allow-Methods", "POST, OPTIONS");
                 ("Access-Control-Allow-Headers", "Content-Type");
                 ("Content-Type", "application/json")];
              body := json_dumps (PyDict
                {[ "conversation_url" := default PyNone (data !! "conversation_url");
                   "conversation_id" := default PyNone (data !! "conversation_id") ]})
                       |}))).
Proof.
  destruct (Z.eqb_spec (requests.status_code answer) 200) as [Hs|Hs].
  - intros H. right. split; [exact Hs|].
    destruct (requests.json_ answer) as [e|[| b | n | x | s | l | data]] eqn:Hj.
    1-7: unfold Server.translate in H; rewrite Hs, Hj in H; discriminate H.
    exists data. split; [reflexivity|].
    rewrite (translate_200_object answer data Hs Hj) in H.
    destruct (truthy (default PyNone (data !! "conversation_url")));
      injection H as <-; [right|left]; split; reflexivity.
  - intros H. left. split; [exact Hs|].
    rewrite (translate_not_200 answer Hs) in H. injection H as <-. reflexivity.
Qed.

Lemma translate_raises (answer : requests.Response) (e : exception) :
  Server.translate answer = Raises e →
  requests.status_code answer = 200 ∧
  (requests.json_ answer = inl e ∨
   (∃ data, requests.json_ answer = inr data ∧ is_dict data = false ∧
            e = AttributeError)).
Proof.
  destruct (Z.eqb_spec (requests.status_code answer) 200) as [Hs|Hs].
  - intros H. split; [exact Hs|].
    destruct (requests.json_ answer) as [e'|data] eqn:Hj.
    + left. unfold Server.translate in H. rewrite Hs, Hj in H.
      injection H as <-. reflexivity.
    + right. exists data. split; [reflexivity|].
      destruct data as [| b | n | x | s | l | d].
      1-6: unfold Server.translate in H; rewrite Hs, Hj in H;
           injection H as <-; split; reflexivity.
      rewrite (translate_200_object answer d Hs Hj) in H.
      destruct (truthy _); discriminate H.
  - intros H. rewrite (translate_not_200 answer Hs) in H. discriminate H.
Qed.

(** The three shapes of a run of [do_POST]. *)
Lemma server_run_cases int read_raises decode loads post (cfg : secrets) (self :
    Server.request) :
  (∃ o, Server.extra_params int read_raises decode loads self = inl o ∧
        Server.do_POST int read_raises decode loads post cfg self = {| calls := []; result
            := o |}) ∨
  (Server.do_POST int read_raises decode loads post cfg self
     = {| calls := []; result := Raises TypeError |}) ∨
  (∃ p, Server.do_POST int read_raises decode loads post cfg self =
          {| calls := [Server.call cfg p];
             result :=
               match post (Server.call cfg p) with
               | inl exc => Responds (Server.unreachable exc)
               | inr answer => Server.translate answer
               end |}).
Proof.
  unfold Server.do_POST.
  destruct (Server.extra_params int read_raises decode loads self) as [o|extra].
  - left. exists o. split; reflexivity.
  - right. destruct (Server.build_payload cfg extra) as [e|p] eqn:Hb.
    + left. apply server_build_error in Hb. rewrite Hb. reflexivity.
    + right. exists p. reflexivity.
Qed.

(** X8. The statuses of [do_POST]. A response written without an outbound
    call is a 404 or a 400. After the call the status is 502 when the
    call raised, the upstream's own status when that is not 200, and 500
    or 200 when it is. *)
Theorem server_status_origin int read_raises decode loads post (cfg : secrets)
    (self : Server.request) (r : response) :
  result (Server.do_POST int read_raises decode loads post cfg self) = Responds r →
  (calls (Server.do_POST int read_raises decode loads post cfg self) = [] ∧
   (status r = 404 ∨ status r = 400)) ∨
  (∃ c, calls (Server.do_POST int read_raises decode loads post cfg self) = [c] ∧
        match post c with
        | inl _ => status r = 502
        | inr answer =>
            if requests.status_code answer =? 200
            then status r = 500 ∨ status r = 200
            else status r = requests.status_code answer
        end).
Proof.
  destruct (server_run_cases int read_raises decode loads post cfg self)
    as [(o & He & ->) | [-> | (p & ->)]]; cbn [result calls].
  - intros ->. left. split; [reflexivity|].
    apply extra_params_done in He as [-> | ->]; [left|right]; reflexivity.
  - discriminate 1.
  - intros H. right. exists (Server.call cfg p). split; [reflexivity|].
    destruct (post (Server.call cfg p)) as [exc|answer].
    + injection H as <-. reflexivity.
    + apply translate_responds in H as [[Hs ->] | [Hs (data & _ & [[_ ->] | [_ ->]])]].
      * destruct (Z.eqb_spec (requests.status_code answer) 200);
          [contradiction|reflexivity].
      * rewrite Hs. left. reflexivity.
      * rewrite Hs. right. reflexivity.
Qed.

Lemma server_status_origin_witness :
  result (Server.do_POST Demo.int Demo.read_raises Demo.decode Demo.loads (Demo.answers
      Demo.forbidden)
            Demo.cfg Demo.empty_request) = Responds Demo.forbidden_relayed ∧
  ((calls (Server.do_POST Demo.int Demo.read_raises Demo.decode Demo.loads (Demo.answers
      Demo.forbidden)
             Demo.cfg Demo.empty_request) = [] ∧
    (status Demo.forbidden_relayed = 404 ∨ status Demo.forbidden_relayed = 400)) ∨
   (∃ c, calls (Server.do_POST Demo.int Demo.read_raises Demo.decode Demo.loads
                  (Demo.answers Demo.forbidden) Demo.cfg Demo.empty_request) = [c] ∧
         match Demo.answers Demo.forbidden c with
         | inl _ => status Demo.forbidden_relayed = 502
         | inr answer =>
             if requests.status_code answer =? 200
             then status Demo.forbidden_relayed = 500 ∨ status Demo.forbidden_relayed = 200
             else status Demo.forbidden_relayed = requests.status_code answer
         end)).
Proof.
  split; [vm_compute; reflexivity|].
  apply (server_status_origin Demo.int Demo.read_raises Demo.decode Demo.loads
           (Demo.answers Demo.forbidden) Demo.cfg Demo.empty_request
           Demo.forbidden_relayed).
  vm_compute. reflexivity.
Defined.

(** X9. A 200 from [do_POST] is never empty-handed: it is written only
    after a call that the upstream answered with 200 and an object whose
    [conversation_url] is truthy, and its body is that URL with the
    upstream's [conversation_id] ([null] when the upstream sent none). *)
Theorem server_200_has_url int read_raises decode loads post (cfg : secrets)
    (self : Server.request) (r : response) :
  result (Server.do_POST int read_raises decode loads post cfg self) = Responds r →
  status r = 200 →
  ∃ c answer data u,
    calls (Server.do_POST int read_raises decode loads post cfg self) = [c] ∧
    post c = inr answer ∧
    requests.status_code answer = 200 ∧
    requests.json_ answer = inr (PyDict data) ∧
    data !! "conversation_url" = Some u ∧
    truthy u = true ∧
    body r = json_dumps (PyDict
      {[ "conversation_url" := u;
         "conversation_id" := default PyNone (data !! "conversation_id") ]}).
Proof.
  destruct (server_run_cases int read_raises decode loads post cfg self)
    as [(o & He & ->) | [-> | (p & ->)]]; cbn [result calls].
  - intros -> Hs. apply extra_params_done in He as [-> | ->]; discriminate Hs.
  - discriminate 1.
  - intros H Hs. exists (Server.call cfg p).
    destruct (post (Server.call cfg p)) as [exc|answer] eqn:Hpost.
    { injection H as <-. discriminate Hs. }
    exists answer.
    apply translate_responds in H as [[Hne Hr] | [H200 (data & Hj & [[_ Hr] | [Ht ->]])]].
    + rewrite Hs in Hr. symmetry in Hr. contradiction.
    + rewrite Hs in Hr. discriminate Hr.
    + exists data. destruct (data !! "conversation_url") as [u|] eqn:Hu.
      * exists u. repeat (split; [reflexivity || assumption|]). reflexivity.
      * discriminate Ht.
Qed.

Lemma server_200_has_url_witness :
  result (Server.do_POST Demo.int Demo.read_raises Demo.decode Demo.loads (Demo.answers
      Demo.created)
            Demo.cfg Demo.empty_request) = Responds Demo.created_relayed ∧
  status Demo.created_relayed = 200 ∧
  ∃ c answer data u,
    calls (Server.do_POST Demo.int Demo.read_raises Demo.decode Demo.loads (Demo.answers
        Demo.created)
             Demo.cfg Demo.empty_request) = [c] ∧
    Demo.answers Demo.created c = inr answer ∧
    requests.status_code answer = 200 ∧
    requests.json_ answer = inr (PyDict data) ∧
    data !! "conversation_url" = Some u ∧
    truthy u = true ∧
    body Demo.created_relayed = json_dumps (PyDict
      {[ "conversation_url" := u;
         "conversation_id" := default PyNone (data !! "conversation_id") ]}).
Proof.
  split; [vm_compute; reflexivity|]. split; [reflexivity|].
  apply (server_200_has_url Demo.int Demo.read_raises Demo.decode Demo.loads (Demo.answers
      Demo.created)
           Demo.cfg Demo.empty_request Demo.created_relayed).
  - vm_compute. reflexivity.
  - reflexivity.
Defined.

(** X10. Where the exception comes from when [do_POST] ends with one
    instead of a response ([requests.post] taken to raise
    [RequestException]s only, as [except] expects). Before any call: [int] on the [Content-Length] ([ValueError]), [rfile.read], the
    decoding of the body ([UnicodeDecodeError]), [json.loads] when what
    it raises is no [json.JSONDecodeError], or the merge loop on a body
    that is no object ([TypeError]). After the call, and only when the
    upstream answered 200: [response.json()], or [data.get] on a body that
    is no object ([AttributeError]). [requests.post] is not among them:
    what it raises is answered with a 502. *)
Theorem server_exceptions int read_raises decode loads post (cfg : secrets)
    (self : Server.request) (e : exception) :
  result (Server.do_POST int read_raises decode loads post cfg self) = Raises e →
  (calls (Server.do_POST int read_raises decode loads post cfg self) = [] ∧
   (e = ValueError ∨
    (∃ n, read_raises n = Some e) ∨
    e = UnicodeDecodeError ∨
    (∃ s, loads s = inl e ∧ is_json_decode_error e = false) ∨
    e = TypeError)) ∨
  (∃ c answer,
     calls (Server.do_POST int read_raises decode loads post cfg self) = [c] ∧
     post c = inr answer ∧
     requests.status_code answer = 200 ∧
     (requests.json_ answer = inl e ∨
      (∃ data, requests.json_ answer = inr data ∧ is_dict data = false ∧
               e = AttributeError))).
Proof.
  destruct (server_run_cases int read_raises decode loads post cfg self)
    as [(o & He & ->) | [-> | (p & ->)]]; cbn [result calls].
  - intros ->. left. split; [reflexivity|].
    apply extra_params_raises in He as [-> | [Hr | [-> | Hl]]].
    + left. reflexivity.
    + right. left. exact Hr.
    + right. right. left. reflexivity.
    + right. right. right. left. exact Hl.
  - intros [= <-]. left. split; [reflexivity|]. do 4 right. reflexivity.
  - intros H. right. exists (Server.call cfg p).
    destruct (post (Server.call cfg p)) as [exc|answer] eqn:Hpost; [discriminate H|].
    exists answer. apply translate_raises in H as [Hs H].
    split; [reflexivity|]. split; [reflexivity|]. split; [exact Hs|exact H].
Qed.

Lemma server_exceptions_witness :
  result (Server.do_POST Demo.int Demo.read_raises Demo.decode Demo.loads
            (Demo.answers Demo.forbidden_200) Demo.cfg Demo.empty_request)
    = Raises (RequestException (requests_exceptions.JSONDecodeError "Expecting value")) ∧
  ∃ c answer,
    calls (Server.do_POST Demo.int Demo.read_raises Demo.decode Demo.loads
             (Demo.answers Demo.forbidden_200) Demo.cfg Demo.empty_request) = [c] ∧
    Demo.answers Demo.forbidden_200 c = inr answer ∧
    requests.status_code answer = 200 ∧
    requests.json_ answer
      = inl (RequestException (requests_exceptions.JSONDecodeError "Expecting value")).
Proof.
  split; [vm_compute; reflexivity|].
  destruct (server_exceptions Demo.int Demo.read_raises Demo.decode Demo.loads
              (Demo.answers Demo.forbidden_200) Demo.cfg Demo.empty_request
              (RequestException (requests_exceptions.JSONDecodeError "Expecting value")))
    as [[Hc _] | (c & answer & Hc & Hp & Hs & [Hj | (data & Hj & _)])].
  - vm_compute. reflexivity.
  - vm_compute in Hc. discriminate Hc.
  - exists c, answer. split; [exact Hc|]. split; [exact Hp|]. split; [exact Hs|exact Hj].
  - injection Hp as <-. discriminate Hj.
Defined.

(** X11. The Flask view ends in one of three ways only. [json.loads]
    raises something that is no [ValueError] and, with no call issued,
    that exception leaves the view; or the view raises [TypeError] before
    any call (a truthy body that is no object and holds one of the five
    names); or it issues exactly one call and then hands back whatever
    that call gives: the upstream's status and text under the four fixed
    header fields, or the exception of [requests] uncaught. *)
Theorem flask_outcome bloads post (cfg : secrets) (request : Flask.request) :
  (∃ e, Flask.is_json request = true ∧
        bloads (Flask.data request) = inl e ∧
        is_value_error e = false ∧
        Flask.create_conversation bloads post cfg request
          = {| calls := []; result := Raises e |}) ∨
  Flask.create_conversation bloads post cfg request
    = {| calls := []; result := Raises TypeError |} ∨
  ∃ c, calls (Flask.create_conversation bloads post cfg request) = [c] ∧
       result (Flask.create_conversation bloads post cfg request) =
         match post c with
         | inl exc => Raises (RequestException exc)
         | inr answer =>
             Responds {| status := requests.status_code answer;
                         sent_headers := cors_headers;
                         body := raw (requests.text answer) |}
         end.
Proof.
  unfold Flask.create_conversation.
  destruct (Flask.extra bloads request) as [e|extra] eqn:Hx.
  - left. exists e. unfold Flask.extra, Flask.get_json in Hx.
    destruct (Flask.is_json request); [|discriminate Hx].
    destruct (bloads (Flask.data request)) as [e'|v]; [|discriminate Hx].
    destruct (is_value_error e') eqn:Hv; [discriminate Hx|].
    injection Hx as <-. repeat split. exact Hv.
  - right. destruct (Flask.build_payload cfg extra) as [e|p] eqn:Hb.
    + left. rewrite variants_build_same_payload in Hb.
      apply server_build_error in Hb. rewrite Hb. reflexivity.
    + right. exists (Flask.call cfg p). split; reflexivity.
Qed.

(** ** Secrets on the way out *)

Lemma server_startup_ok (environ : gmap string string) (cfg : secrets) :
  Server.startup environ = Some cfg →
  environ !! "TAVUS_API_KEY" = Some (API_KEY cfg) ∧ API_KEY cfg ≠ EmptyString ∧
  environ !! "PERSONA_ID" = Some (PERSONA_ID cfg) ∧ PERSONA_ID cfg ≠ EmptyString.
Proof.
  unfold Server.startup. intros H.
  destruct (environ !! "TAVUS_API_KEY") as [k|]; [|discriminate H].
  destruct (environ !! "PERSONA_ID") as [p|];
    [|destruct (negb (truthy_str (Some k)) || negb (truthy_str None))%bool;
      discriminate H].
  cbn [truthy_str] in H.
  destruct (String.eqb_spec k EmptyString) as [Hk|Hk]; [discriminate H|].
  destruct (String.eqb_spec p EmptyString) as [Hp|Hp]; [discriminate H|].
  cbn [negb orb] in H. injection H as <-. cbn [API_KEY PERSONA_ID].
  repeat split; assumption.
Qed.

Lemma call_persona_id (cfg : secrets) (extra : value) (p : gmap string value) :
  Server.build_payload cfg extra = inr p →
  p !! "persona_id" = Some (PyStr (PERSONA_ID cfg)).
Proof.
  intros Hp. rewrite (server_payload_outside _ _ _ _ Hp persona_id_not_allowed).
  reflexivity.
Qed.

(** X12. Start-up and [do_POST] together: once the module has loaded,
    every outbound call carries the [TAVUS_API_KEY] of the environment in
    [x-api-key] and its [PERSONA_ID] as [persona_id], and neither is
    empty, whatever the request says. *)
Theorem served_calls_carry_the_secrets int read_raises decode loads post
    (environ : gmap string string) (cfg : secrets)
    (self : Server.request) (c : requests.Call) :
  Server.startup environ = Some cfg →
  c ∈ calls (Server.do_POST int read_raises decode loads post cfg self) →
  ∃ k p,
    environ !! "TAVUS_API_KEY" = Some k ∧ k ≠ EmptyString ∧
    environ !! "PERSONA_ID" = Some p ∧ p ≠ EmptyString ∧
    requests.headers c !! "x-api-key" = Some k ∧
    requests.json c !! "persona_id" = Some (PyStr p).
Proof.
  intros Hs Hc. apply server_startup_ok in Hs as (Hk & Hk' & Hp & Hp').
  apply server_calls in Hc as (extra & p & _ & Hb & ->).
  exists (API_KEY cfg), (PERSONA_ID cfg).
  split; [exact Hk|]. split; [exact Hk'|]. split; [exact Hp|]. split; [exact Hp'|].
  split; [reflexivity|]. exact (call_persona_id cfg extra p Hb).
Qed.

Lemma served_calls_carry_the_secrets_witness :
  Server.startup Demo.full_environ = Some Demo.cfg ∧
  ∃ k p,
    Demo.full_environ !! "TAVUS_API_KEY" = Some k ∧ k ≠ EmptyString ∧
    Demo.full_environ !! "PERSONA_ID" = Some p ∧ p ≠ EmptyString ∧
    requests.headers (Server.call Demo.cfg
      {[ "persona_id" := PyStr "p_demo"; "replica_id" := PyStr "r_demo";
         "conversation_name" := PyStr "demo"; "audio_only" := PyBool true ]})
      !! "x-api-key" = Some k ∧
    requests.json (Server.call Demo.cfg
      {[ "persona_id" := PyStr "p_demo"; "replica_id" := PyStr "r_demo";
         "conversation_name" := PyStr "demo"; "audio_only" := PyBool true ]})
      !! "persona_id" = Some (PyStr p).
Proof.
  split; [vm_compute; reflexivity|].
  apply (served_calls_carry_the_secrets Demo.int Demo.read_raises Demo.decode Demo.loads
           (Demo.answers Demo.created) Demo.full_environ Demo.cfg Demo.named_request).
  - vm_compute; reflexivity.
  - vm_compute. apply list_elem_of_here.
Defined.

(** X13. The Flask module is less strict at start-up: with [PERSONA_ID]
    set to the empty string, where the [http.server] module exits, it
    loads, and every call it issues then carries an empty
    [persona_id]. *)
Theorem flask_serves_empty_persona (environ : gmap string string) (k : string) :
  environ !! "TAVUS_API_KEY" = Some k →
  environ !! "PERSONA_ID" = Some EmptyString →
  Server.startup environ = None ∧
  ∃ cfg, Flask.startup environ = inr cfg ∧
    ∀ bloads post request c,
      c ∈ calls (Flask.create_conversation bloads post cfg request) →
      requests.json c !! "persona_id" = Some (PyStr EmptyString).
Proof.
  intros Hk Hp. split.
  - unfold Server.startup. rewrite Hk, Hp. cbn [truthy_str String.eqb negb].
    rewrite orb_true_r. reflexivity.
  - eexists. split; [unfold Flask.startup; rewrite Hk, Hp; reflexivity|].
    intros bloads post request c Hc.
    apply flask_calls in Hc as (extra & p & _ & Hb & ->).
    rewrite variants_build_same_payload in Hb.
    exact (call_persona_id _ _ _ Hb).
Qed.

Lemma flask_serves_empty_persona_witness :
  Demo.empty_persona_environ !! "PERSONA_ID" = Some EmptyString ∧
  Server.startup Demo.empty_persona_environ = None ∧
  Flask.startup Demo.empty_persona_environ = inr Demo.empty_persona ∧
  requests.json <$> calls (Flask.create_conversation Demo.loads_bytes
                             (Demo.answers Demo.created) Demo.empty_persona
                             (Demo.flask_request "{}"))
  = [ {[ "persona_id" := PyStr EmptyString ]} ].
Proof.
  assert (Demo.empty_persona_environ !! "TAVUS_API_KEY" = Some "sk_key"%string) as Hk
    by (vm_compute; reflexivity).
  assert (Demo.empty_persona_environ !! "PERSONA_ID" = Some EmptyString) as Hp
    by (vm_compute; reflexivity).
  destruct (flask_serves_empty_persona Demo.empty_persona_environ "sk_key" Hk Hp)
    as [Hs _].
  split; [exact Hp|]. split; [exact Hs|]. split; vm_compute; reflexivity.
Defined.

(** A missing variable stops the Flask module with [KeyError]. *)
Lemma flask_startup_missing (environ : gmap string string) :
  environ !! "TAVUS_API_KEY" = None ∨ environ !! "PERSONA_ID" = None →
  Flask.startup environ = inl KeyError.
Proof.
  unfold Flask.startup. intros [H|H]; rewrite H; [reflexivity|].
  destruct (environ !! "TAVUS_API_KEY"); reflexivity.
Qed.

(** X14. A configured replica cannot be changed by the caller: when
    [REPLICA_ID] is a non-empty text, every call of either variant has
    it as [replica_id], whatever the body holds, a [replica_id] of its
    own included. *)
Theorem configured_replica_is_forwarded (cfg : secrets) (replica : string) :
  REPLICA_ID cfg = Some replica →
  replica ≠ EmptyString →
  (∀ int read_raises decode loads post self c,
     c ∈ calls (Server.do_POST int read_raises decode loads post cfg self) →
     requests.json c !! "replica_id" = Some (PyStr replica)) ∧
  (∀ bloads post request c,
     c ∈ calls (Flask.create_conversation bloads post cfg request) →
     requests.json c !! "replica_id" = Some (PyStr replica)).
Proof.
  intros Hr Hne.
  assert (fixed_entry cfg "replica_id" = Some (PyStr replica)) as Hf.
  { unfold fixed_entry. rewrite Hr. cbn [truthy_str of_optional].
    destruct (String.eqb_spec replica EmptyString); [contradiction|reflexivity]. }
  split.
  - intros int read_raises decode loads post self c Hc.
    apply server_calls in Hc as (extra & p & _ & Hb & ->).
    rewrite <- Hf. exact (server_payload_outside _ _ _ _ Hb replica_id_not_allowed).
  - intros bloads post request c Hc.
    apply flask_calls in Hc as (extra & p & _ & Hb & ->).
    rewrite <- Hf. exact (flask_payload_outside _ _ _ _ Hb replica_id_not_allowed).
Qed.

Lemma configured_replica_is_forwarded_witness :
  Server.extra_params Demo.int Demo.read_raises Demo.decode Demo.loads_replica
      Demo.replica_request
    = inr (PyDict {[ "replica_id" := PyStr "r_other" ]}) ∧
  requests.json <$> calls (Server.do_POST Demo.int Demo.read_raises Demo.decode
      Demo.loads_replica
                             (Demo.answers Demo.created) Demo.cfg Demo.replica_request)
    = [Demo.bare_payload] ∧
  requests.json (Server.call Demo.cfg Demo.bare_payload) !! "replica_id"
    = Some (PyStr "r_demo").
Proof.
  split; [vm_compute; reflexivity|]. split; [vm_compute; reflexivity|].
  destruct (configured_replica_is_forwarded Demo.cfg "r_demo" eq_refl) as [S _];
    [discriminate|].
  apply (S Demo.int Demo.read_raises Demo.decode Demo.loads_replica (Demo.answers
      Demo.created)
           Demo.replica_request).
  vm_compute. apply list_elem_of_here.
Defined.

(** ** One call, one place *)

(** X15. Neither handler retries or calls anything else: a run issues at
    most one outbound call, and every call goes to the conversations
    endpoint of the Tavus API with exactly two header fields, the API key
    in [x-api-key] and a JSON content type. *)
Theorem one_call_to_one_place (cfg : secrets) :
  (∀ int read_raises decode loads post self,
     (length (calls (Server.do_POST int read_raises decode loads post cfg self)) ≤ 1)%nat ∧
     ∀ c, c ∈ calls (Server.do_POST int read_raises decode loads post cfg self) →
          requests.url c = "https://tavusapi.com/v2/conversations" ∧
          requests.headers c =
            {[ "Content-Type" := "application/json"; "x-api-key" := API_KEY cfg ]}) ∧
  (∀ bloads post request,
     (length (calls (Flask.create_conversation bloads post cfg request)) ≤ 1)%nat ∧
     ∀ c, c ∈ calls (Flask.create_conversation bloads post cfg request) →
          requests.url c = "https://tavusapi.com/v2/conversations" ∧
          requests.headers c =
            {[ "Content-Type" := "application/json"; "x-api-key" := API_KEY cfg ]}).
Proof.
  split.
  - intros int read_raises decode loads post self. split.
    + destruct (server_run_cases int read_raises decode loads post cfg self)
        as [(o & _ & ->) | [-> | (p & ->)]]; cbn [calls length]; lia.
    + intros c (extra & p & _ & _ & ->)%server_calls. split; reflexivity.
  - intros bloads post request. split.
    + unfold Flask.create_conversation.
      destruct (Flask.extra bloads request) as [e|extra]; [cbn [calls length]; lia|].
      destruct (Flask.build_payload cfg extra); cbn [calls length]; lia.
    + intros c (extra & p & _ & _ & ->)%flask_calls. split; [reflexivity|].
      exact (f_equal (λ t, snd (fst t)) (eq_sym (variants_same_target cfg p))).
Qed.

Lemma one_call_to_one_place_witness :
  calls (Server.do_POST Demo.int Demo.read_raises Demo.decode Demo.loads (Demo.answers
      Demo.created)
           Demo.cfg Demo.named_request) ≠ [] ∧
  (length (calls (Server.do_POST Demo.int Demo.read_raises Demo.decode Demo.loads
                    (Demo.answers Demo.created) Demo.cfg Demo.named_request)) ≤ 1)%nat.
Proof.
  split; [vm_compute; discriminate|].
  destruct (one_call_to_one_place Demo.cfg) as [S _].
  apply (S Demo.int Demo.read_raises Demo.decode Demo.loads (Demo.answers Demo.created)
           Demo.named_request).
Defined.

(** ** The content type of what [do_POST] writes itself *)

(** X16. Every response that [do_POST] writes after its outbound call,
    whatever the status, declares [Content-Type: application/json]. *)
Theorem server_responses_declare_json int read_raises decode loads post (cfg : secrets)
    (self : Server.request) (c : requests.Call) (r : response) :
  calls (Server.do_POST int read_raises decode loads post cfg self) = [c] →
  result (Server.do_POST int read_raises decode loads post cfg self) = Responds r →
  has_header r "Content-Type" "application/json".
Proof.
  intros Hc. rewrite (server_result _ _ _ _ _ _ _ _ Hc). unfold has_header.
  destruct (post c) as [exc|answer].
  - intros [= <-]. apply list_elem_of_here.
  - intros H. destruct (Z.eqb_spec (requests.status_code answer) 200) as [Hs|Hs].
    + destruct (translate_responds _ _ H)
        as [[Hne _] | [_ (data & Hj & [[Ht _] | [_ ->]])]]; [contradiction| |].
      * rewrite (translate_200_object answer data Hs Hj), Ht in H.
        injection H as <-. apply list_elem_of_here.
      * cbn [sent_headers]. do 3 apply list_elem_of_further. apply list_elem_of_here.
    + rewrite (translate_not_200 answer Hs) in H. injection H as <-.
      apply list_elem_of_here.
Qed.

Lemma server_responses_declare_json_witness :
  calls (Server.do_POST Demo.int Demo.read_raises Demo.decode Demo.loads (Demo.answers
      Demo.forbidden)
           Demo.cfg Demo.empty_request) = [Server.call Demo.cfg Demo.bare_payload] ∧
  result (Server.do_POST Demo.int Demo.read_raises Demo.decode Demo.loads (Demo.answers
      Demo.forbidden)
            Demo.cfg Demo.empty_request) = Responds Demo.forbidden_relayed ∧
  has_header Demo.forbidden_relayed "Content-Type" "application/json".
Proof.
  split; [vm_compute; reflexivity|]. split; [vm_compute; reflexivity|].
  apply (server_responses_declare_json Demo.int Demo.read_raises Demo.decode Demo.loads
           (Demo.answers Demo.forbidden) Demo.cfg Demo.empty_request
           (Server.call Demo.cfg Demo.bare_payload)); vm_compute; reflexivity.
Defined.
